(** * The authentication service (services/auth.service.js)

    A shallow embedding of the five request handlers of the service
    (signup, login, requestPasswordReset, resetPassword, logout) together
    with the collaborators they call: the two Mongoose models, the
    response helper, the token signer, the mailer and the transport
    object [res].  Handlers are computations in a state-and-exception
    monad over a [World]; a [try { ... } catch (error) { ... }] block is
    [try_catch], and writes made before a throw stay in the world. *)

From Stdlib Require Import List String Ascii ZArith Bool Lia DecimalString.
Import ListNotations.
Open Scope list_scope.
Open Scope Z_scope.
Open Scope string_scope.

Set Warnings "-register-all".

(** ** JavaScript values *)

(** A BSON ObjectId, kept as its hexadecimal rendering. *)
Definition ObjectId := string.

Inductive JsValue : Type :=
| JUndefined
| JNull
| JBool (b : bool)
| JNum (n : Z)
| JStr (s : string)
| JOid (i : ObjectId)
| JArr (xs : list JsValue)
| JObj (props : list (string * JsValue)).

(** Structural equality of values, as a query filter or a unique index
    compares them. *)
Fixpoint jeqb (a b : JsValue) {struct a} : bool :=
  match a, b with
  | JUndefined, JUndefined => true
  | JNull, JNull => true
  | JBool x, JBool y => Bool.eqb x y
  | JNum x, JNum y => Z.eqb x y
  | JStr x, JStr y => String.eqb x y
  | JOid x, JOid y => String.eqb x y
  | JArr xs, JArr ys =>
      (fix go (l r : list JsValue) : bool :=
         match l, r with
         | [], [] => true
         | x :: l', y :: r' => jeqb x y && go l' r'
         | _, _ => false
         end) xs ys
  | JObj ps, JObj qs =>
      (fix go (l r : list (string * JsValue)) : bool :=
         match l, r with
         | [], [] => true
         | (k, x) :: l', (k', y) :: r' =>
             String.eqb k k' && jeqb x y && go l' r'
         | _, _ => false
         end) ps qs
  | _, _ => false
  end.

(** [obj.key]: the value of a property, [undefined] when it is absent. *)
Fixpoint jprop (key : string) (props : list (string * JsValue)) : JsValue :=
  match props with
  | [] => JUndefined
  | (k, v) :: rest => if String.eqb k key then v else jprop key rest
  end.

Definition jget (key : string) (v : JsValue) : JsValue :=
  match v with
  | JObj props => jprop key props
  | _ => JUndefined
  end.

(** The own property names of an object value. *)
Definition jkeys (v : JsValue) : list string :=
  match v with
  | JObj props => map fst props
  | _ => []
  end.

(** ToBoolean, as [if (!x)] applies it. *)
Definition truthy (v : JsValue) : bool :=
  match v with
  | JUndefined | JNull => false
  | JBool b => b
  | JNum n => negb (n =? 0)%Z
  | JStr s => negb (String.eqb s "")
  | JOid _ | JArr _ | JObj _ => true
  end.

Fixpoint join (sep : string) (parts : list string) : string :=
  match parts with
  | [] => ""
  | [p] => p
  | p :: rest => p ++ sep ++ join sep rest
  end.

(** ToString, as a template literal [`${x}`] applies it. *)
Fixpoint toString (v : JsValue) : string :=
  match v with
  | JUndefined => "undefined"
  | JNull => "null"
  | JBool true => "true"
  | JBool false => "false"
  | JNum n => NilZero.string_of_int (Z.to_int n)
  | JStr s => s
  | JOid i => i
  | JArr xs =>
      join ","
        (map (fun x => match x with
                       | JUndefined | JNull => ""
                       | _ => toString x
                       end) xs)
  | JObj _ => "[object Object]"
  end.

(** ** Thrown values *)

(** An Error object: its name, its message and its [code] property. *)
Record JsError := mkError {
  errName : string;
  errMessage : string;
  errCode : JsValue
}.

Definition ReferenceError (ident : string) : JsError :=
  mkError "ReferenceError" (ident ++ " is not defined") JUndefined.

Definition CastError (path : string) : JsError :=
  mkError "CastError" ("Cast to ObjectId failed at path " ++ path) JUndefined.

Definition DocumentNotFoundError : JsError :=
  mkError "DocumentNotFoundError" "No document found for query" JUndefined.

(** The driver's duplicate-key write error, E11000. *)
Definition DuplicateKeyError : JsError :=
  mkError "MongoServerError" "E11000 duplicate key error" (JNum 11000).

(** ** Documents *)

Module Schema.

(** A document of the users collection. [isNew] is Mongoose's flag of a
    document that was built with [new User] and not yet saved. *)
Record UserDoc := mkUser {
  _id : ObjectId;
  firstName : JsValue;
  lastName : JsValue;
  email : JsValue;
  password : JsValue;
  confirmPassword : JsValue;
  dateOfBirth : JsValue;
  gender : JsValue;
  cart : JsValue;
  role : JsValue;
  createdAt : JsValue;
  updatedAt : JsValue;
  isNew : bool
}.

(** A document of the tokens collection. *)
Record TokenDoc := mkToken {
  tokenId : ObjectId;
  userId : ObjectId;
  resetPasswordToken : JsValue
}.

End Schema.
Export Schema.

(** ** The world a handler runs in *)

(** A call the handler makes on the transport object [res]. *)
Inductive ResCall :=
| SetCookie (name : string) (value : string)
            (httpOnly : bool) (maxAge : Z) (secure : bool)
| ClearCookie (name : string).

(** A message handed to the mailer (utils/sendEmail). *)
Inductive Mail :=
| ResetPasswordEmail (to_ : JsValue) (name : JsValue) (link : string)
| ConfirmResetPasswordEmail (to_ : JsValue) (name : JsValue) (link : string).

Record World := mkWorld {
  users : list UserDoc;          (* the users collection *)
  tokens : list TokenDoc;        (* the tokens collection *)
  resCalls : list ResCall;       (* calls made on res, oldest first *)
  outbox : list Mail;            (* mails handed over, oldest first *)
  entropy : nat;                 (* draws made from the random source *)
  clock : Z;                     (* Date.now() *)
  NODE_ENV : JsValue;            (* process.env.NODE_ENV *)
  globalThis : list (string * JsValue)  (* bindings of the global object *)
}.

Definition set_users (us : list UserDoc) (w : World) : World :=
  mkWorld us (tokens w) (resCalls w) (outbox w) (entropy w) (clock w)
          (NODE_ENV w) (globalThis w).

Definition set_tokens (ts : list TokenDoc) (w : World) : World :=
  mkWorld (users w) ts (resCalls w) (outbox w) (entropy w) (clock w)
          (NODE_ENV w) (globalThis w).

Definition add_resCall (c : ResCall) (w : World) : World :=
  mkWorld (users w) (tokens w) (resCalls w ++ [c])%list (outbox w)
          (entropy w) (clock w) (NODE_ENV w) (globalThis w).

Definition add_mail (m : Mail) (w : World) : World :=
  mkWorld (users w) (tokens w) (resCalls w) (outbox w ++ [m])%list
          (entropy w) (clock w) (NODE_ENV w) (globalThis w).

Definition tick_entropy (w : World) : World :=
  mkWorld (users w) (tokens w) (resCalls w) (outbox w) (S (entropy w))
          (clock w) (NODE_ENV w) (globalThis w).

(** ** Computations: state and exceptions *)

Inductive Completion (A : Type) : Type :=
| Normal (a : A)
| Throw (e : JsError).
Arguments Normal {A} a.
Arguments Throw {A} e.

Definition Async (A : Type) : Type := World -> Completion A * World.

Definition ret {A} (a : A) : Async A := fun w => (Normal a, w).

Definition throw {A} (e : JsError) : Async A := fun w => (Throw e, w).

Definition bind {A B} (m : Async A) (k : A -> Async B) : Async B :=
  fun w =>
    match m w with
    | (Normal a, w') => k a w'
    | (Throw e, w') => (Throw e, w')
    end.

(** [try { body } catch (error) { handler }]: the world keeps what the
    body did before it threw. *)
Definition try_catch {A} (body : Async A) (handler : JsError -> Async A)
  : Async A :=
  fun w =>
    match body w with
    | (Normal a, w') => (Normal a, w')
    | (Throw e, w') => handler e w'
    end.

Definition gets {A} (f : World -> A) : Async A := fun w => (Normal (f w), w).

Definition modify (f : World -> World) : Async unit :=
  fun w => (Normal tt, f w).

(** A promise or call that settles without touching the world. *)
Definition settle {A} (r : Completion A) : Async A := fun w => (r, w).

Declare Scope async_scope.
Delimit Scope async_scope with async.
Notation "x <- m ;; k" := (bind m (fun x => k))
  (at level 100, m at next level, right associativity) : async_scope.
Notation "m ;; k" := (bind m (fun _ => k))
  (at level 100, right associativity) : async_scope.
Open Scope async_scope.

(** ** Collaborators that are imported, not defined, by the service *)

(** What the service requires from other modules: the environment
    configuration, the token helper (utils/jwtHelper), the methods and the
    schema of the User model, Mongoose's ObjectId and the random source,
    and the answer of the token store to a delete.  A call that can throw
    or reject yields a [Completion]. *)
Record Collaborators := mkCollaborators {
  CLIENT_URL : string;
  signAccessToken : ObjectId -> Completion string;
  signRefreshToken : ObjectId -> Completion string;
  verifyRefreshToken : JsValue -> Completion JsValue;
  createJWT : UserDoc -> Completion string;
  comparePassword : UserDoc -> JsValue -> Completion bool;
  hashPassword : nat -> JsValue -> JsValue;   (* salt, plain text *)
  validateUser : UserDoc -> option JsError;   (* schema validators *)
  normalizeEmail : JsValue -> JsValue;        (* schema setter of email *)
  castObjectId : JsValue -> option ObjectId;
  newObjectId : nat -> ObjectId;
  randomBytesHex : nat -> string;
  deleteOne : TokenDoc -> option JsError      (* a delete the store rejects *)
}.

(** ** Requests and result envelopes *)

(** A request as the handlers read it. [validationResult] is what
    express-validator's route middleware recorded on the request: the
    ordered array of field errors, each an object with a [msg]. *)
Record Request := mkRequest {
  body : list (string * JsValue);
  params : list (string * JsValue);
  reqUser : JsValue;
  validationResult : list JsValue
}.

Definition isEmpty (errors : list JsValue) : bool :=
  match errors with [] => true | _ => false end.

(** Modelled from the spec: utils/response is not under src/.  The spec's
    ResultEnvelope is {payload, success: bool, isError: bool, message:
    string, statusCode: int, optional oldInput, optional validationErrors};
    the helper is called as Response(data, success, error, message,
    status), and an optional field is [undefined] until it is assigned. *)
Record Envelope := mkEnvelope {
  payload : JsValue;
  success : bool;
  isError : bool;
  message : JsValue;
  statusCode : Z;
  oldInput : JsValue;
  validationErrors : JsValue
}.

Definition Response (data : JsValue) (success error : bool)
    (message : JsValue) (status : Z) : Envelope :=
  mkEnvelope data success error message status JUndefined JUndefined.

Definition set_oldInput (v : JsValue) (r : Envelope) : Envelope :=
  mkEnvelope (payload r) (success r) (isError r) (message r) (statusCode r)
             v (validationErrors r).

Definition set_validationErrors (v : JsValue) (r : Envelope) : Envelope :=
  mkEnvelope (payload r) (success r) (isError r) (message r) (statusCode r)
             (oldInput r) v.

(** What a handler hands back: an envelope, or whatever [next(error)]
    gives after the error went to the upstream error handler. *)
Inductive Reply :=
| Returned (envelope : Envelope)
| Forwarded (error : JsError).

Definition next (error : JsError) : Async Reply := ret (Forwarded error).

(** ** The transport, the mailer and the scope chain *)

Definition res_cookie (name value : string) (httpOnly : bool) (maxAge : Z)
    (secure : bool) : Async unit :=
  modify (add_resCall (SetCookie name value httpOnly maxAge secure)).

Definition res_clearCookie (name : string) : Async unit :=
  modify (add_resCall (ClearCookie name)).

Definition sendResetPasswordEmail (to_ name : JsValue) (link : string)
  : Async unit :=
  modify (add_mail (ResetPasswordEmail to_ name link)).

Definition sendConfirmResetPasswordEmail (to_ name : JsValue) (link : string)
  : Async unit :=
  modify (add_mail (ConfirmResetPasswordEmail to_ name link)).

(** The names the module binds: its twelve [const] imports and the five
    names of the CommonJS wrapper. *)
Definition moduleScope : list string :=
  ["mongoose"; "validationResult"; "User"; "Token"; "emailTemplate";
   "Response"; "signAccessToken"; "signRefreshToken"; "verifyRefreshToken";
   "WEBSITE_URL"; "API_VERSION"; "CLIENT_URL";
   "exports"; "require"; "module"; "__filename"; "__dirname"].

(** The names bound inside [logout] where its try block runs. *)
Definition logoutScope : list string :=
  ["req"; "res"; "next"; "refreshToken"; "userId"; "user"].

(** Evaluating an identifier that no enclosing scope binds: the value of
    the global object's property, or a ReferenceError. *)
Definition globalIdentifier (name : string) : Async JsValue :=
  fun w =>
    match find (fun kv => String.eqb (fst kv) name) (globalThis w) with
    | Some kv => (Normal (snd kv), w)
    | None => (Throw (ReferenceError name), w)
    end.

(** ** The models *)

Definition set_password (v : JsValue) (u : UserDoc) : UserDoc :=
  mkUser (_id u) (firstName u) (lastName u) (email u) v (confirmPassword u)
         (dateOfBirth u) (gender u) (cart u) (role u) (createdAt u)
         (updatedAt u) (isNew u).

Definition set_confirmPassword (v : JsValue) (u : UserDoc) : UserDoc :=
  mkUser (_id u) (firstName u) (lastName u) (email u) (password u) v
         (dateOfBirth u) (gender u) (cart u) (role u) (createdAt u)
         (updatedAt u) (isNew u).

(** The document as the collection holds it after a write at time [now]. *)
Definition stored (now : Z) (hash : JsValue) (u : UserDoc) : UserDoc :=
  mkUser (_id u) (firstName u) (lastName u) (email u) hash
         (confirmPassword u) (dateOfBirth u) (gender u) (cart u) (role u)
         (if isNew u then JNum now else createdAt u) (JNum now) false.

(** [new mongoose.Types.ObjectId()]. *)
Definition ObjectId_new (C : Collaborators) : Async ObjectId :=
  fun w => (Normal (newObjectId C (entropy w)), tick_entropy w).

(** Modelled from the spec: models/users.model is not under src/.  The
    Credential Store persists user records and enforces email uniqueness
    at the store boundary; the password is stored only as a one-way hash
    and is rehashed on save whenever it changes value; the email is
    case-normalized; the role defaults to "user".  A save runs the schema
    validators first; an insert that meets a stored document with the same
    [_id] or email is refused with the duplicate-key error. *)
Module User.
Section Model.
Variable C : Collaborators.

Inductive Filter := ByEmail (email : JsValue).

Definition new (oid : ObjectId) (firstName lastName email password
    confirmPassword dateOfBirth gender cart role : JsValue) : UserDoc :=
  mkUser oid firstName lastName (normalizeEmail C email) password
         confirmPassword dateOfBirth gender cart
         (match role with JUndefined => JStr "user" | _ => role end)
         JUndefined JUndefined true.

Definition byEmail (v : JsValue) (w : World) : option UserDoc :=
  find (fun u => jeqb (email u) v) (users w).

Definition findOne (f : Filter) : Async (option UserDoc) :=
  match f with
  | ByEmail v => gets (byEmail v)
  end.

Definition byId (oid : ObjectId) (w : World) : option UserDoc :=
  find (fun u => String.eqb (_id u) oid) (users w).

Definition findById (id : JsValue) : Async (option UserDoc) :=
  match castObjectId C id with
  | Some oid => gets (byId oid)
  | None => throw (CastError "_id")
  end.

Definition duplicates (doc : UserDoc) (w : World) : bool :=
  existsb (fun u => String.eqb (_id u) (_id doc)
                    || jeqb (email u) (email doc)) (users w).

Definition replace (doc : UserDoc) (us : list UserDoc) : list UserDoc :=
  map (fun u => if String.eqb (_id u) (_id doc) then doc else u) us.

Definition save (doc : UserDoc) : Async UserDoc :=
  fun w =>
    match validateUser C doc with
    | Some e => (Throw e, w)
    | None =>
        if isNew doc then
          let doc' :=
            stored (clock w) (hashPassword C (entropy w) (password doc)) doc in
          let w' := tick_entropy w in
          if duplicates doc w then (Throw DuplicateKeyError, w')
          else (Normal doc', set_users (users w ++ [doc'])%list w')
        else
          match byId (_id doc) w with
          | None => (Throw DocumentNotFoundError, w)
          | Some old =>
              if jeqb (password old) (password doc) then
                let doc' := stored (clock w) (password doc) doc in
                (Normal doc', set_users (replace doc' (users w)) w)
              else
                let doc' :=
                  stored (clock w)
                         (hashPassword C (entropy w) (password doc)) doc in
                (Normal doc',
                 set_users (replace doc' (users w)) (tick_entropy w))
          end
    end.

End Model.
End User.

(** Modelled from the spec: models/token.model is not under src/.  The
    Reset Token Store persists password-reset tokens keyed by user: the
    owning user id and a random opaque token string.  Expiry is the
    store's own business (the service never reads it), so the collection
    holds the live tokens.  A store failure surfaces as an error: a
    delete that the store rejects throws and removes nothing. *)
Module Token.
Section Model.
Variable C : Collaborators.

Record Filter := mkFilter {
  byUserId : ObjectId;
  byResetPasswordToken : option JsValue
}.

Definition matches (f : Filter) (t : TokenDoc) : bool :=
  String.eqb (userId t) (byUserId f)
  && match byResetPasswordToken f with
     | Some v => jeqb (resetPasswordToken t) v
     | None => true
     end.

Definition lookup (f : Filter) (w : World) : option TokenDoc :=
  find (matches f) (tokens w).

Definition findOne (f : Filter) : Async (option TokenDoc) :=
  gets (lookup f).

Definition new (uid : ObjectId) : Async TokenDoc :=
  oid <- ObjectId_new C ;;
  ret (mkToken oid uid JUndefined).

Definition generatePasswordReset (t : TokenDoc) : Async TokenDoc :=
  fun w =>
    (Normal (mkToken (tokenId t) (userId t)
                     (JStr (randomBytesHex C (entropy w)))),
     tick_entropy w).

Definition save (t : TokenDoc) : Async TokenDoc :=
  fun w =>
    if existsb (fun x => String.eqb (tokenId x) (tokenId t)) (tokens w)
    then (Throw DuplicateKeyError, w)
    else (Normal t, set_tokens (tokens w ++ [t])%list w).

Definition delete (t : TokenDoc) : Async unit :=
  fun w =>
    match deleteOne C t with
    | Some e => (Throw e, w)
    | None =>
        (Normal tt,
         set_tokens
           (filter (fun x => negb (String.eqb (tokenId x) (tokenId t)))
                   (tokens w))
           w)
    end.

End Model.
End Token.

(** ** The handlers of services/auth.service.js *)

Section Service.
Variable C : Collaborators.

Definition production : Async bool :=
  gets (fun w => jeqb (NODE_ENV w) (JStr "production")).

Definition invalidToken : JsValue :=
  JStr "Password reset token is invalid or has expired.".

Definition authFailed : JsValue := JStr "Auth Failed (Invalid Credentials)".

(** exports.signup *)
Definition signup (req : Request) : Async Reply :=
  let firstName := jprop "firstName" (body req) in
  let lastName := jprop "lastName" (body req) in
  let email := jprop "email" (body req) in
  let password := jprop "password" (body req) in
  let dateOfBirth := jprop "dateOfBirth" (body req) in
  let gender := jprop "gender" (body req) in
  let cart := jprop "cart" (body req) in
  let confirmPassword := jprop "confirmPassword" (body req) in
  let role := jprop "role" (body req) in
  let errors := validationResult req in
  if negb (isEmpty errors) then
    let message := jget "msg" (nth 0 errors JUndefined) in
    let responseObject := Response (JObj []) false true message 422 in
    let responseObject :=
      set_oldInput
        (JObj [("firstName", firstName); ("lastName", lastName);
               ("email", email); ("password", password);
               ("confirmPassword", confirmPassword);
               ("dateOfBirth", dateOfBirth); ("gender", gender)])
        responseObject in
    let responseObject :=
      set_validationErrors (JArr errors) responseObject in
    ret (Returned responseObject)
  else
    oid <- ObjectId_new C ;;
    let newUser :=
      User.new C oid firstName lastName email password confirmPassword
               dateOfBirth gender cart role in
    try_catch
      (user <- User.save C newUser ;;
       token <- settle (createJWT C user) ;;
       accessToken <- settle (signAccessToken C (_id user)) ;;
       refreshToken <- settle (signRefreshToken C (_id user)) ;;
       let data :=
         JObj [("token", JStr token); ("accessToken", JStr accessToken);
               ("refreshToken", JStr refreshToken)] in
       ret (Returned
              (Response data true false (JStr "Registered Successfully") 201)))
      (fun error =>
         if jeqb (errCode error) (JNum 11000) then
           ret (Returned
                  (Response (JObj []) false true
                     (JStr ("E-Mail address  " ++ toString (Schema.email newUser)
                            ++ " is already exists, please pick a different one."))
                     409))
         else next error).

(** exports.login *)
Definition login (req : Request) : Async Reply :=
  let email := jprop "email" (body req) in
  let password := jprop "password" (body req) in
  let errors := validationResult req in
  if negb (isEmpty errors) then
    let message := jget "msg" (nth 0 errors JUndefined) in
    let responseObject := Response (JObj []) false true message 422 in
    let responseObject :=
      set_oldInput (JObj [("email", email); ("password", password)])
                   responseObject in
    let responseObject :=
      set_validationErrors (JArr errors) responseObject in
    ret (Returned responseObject)
  else
    try_catch
      (found <- User.findOne (User.ByEmail email) ;;
       match found with
       | None => ret (Returned (Response (JObj []) false true authFailed 401))
       | Some user =>
           isPasswordCorrect <- settle (comparePassword C user password) ;;
           if negb isPasswordCorrect then
             ret (Returned (Response (JObj []) false true authFailed 401))
           else
             token <- settle (createJWT C user) ;;
             accessToken <- settle (signAccessToken C (_id user)) ;;
             refreshToken <- settle (signRefreshToken C (_id user)) ;;
             let data :=
               JObj [("user",
                 JObj [("_id", JOid (_id user));
                       ("firstName", firstName user);
                       ("lastName", lastName user);
                       ("email", Schema.email user);
                       ("dateOfBirth", dateOfBirth user);
                       ("gender", gender user);
                       ("createdAt", createdAt user);
                       ("updatedAt", updatedAt user);
                       ("role", role user);
                       ("token", JStr token);
                       ("accessToken", JStr accessToken);
                       ("refreshToken", JStr refreshToken)])] in
             secure <- production ;;
             res_cookie "authToken" token true
                        (365 * 24 * 60 * 60 * 1000) secure ;;
             secure <- production ;;
             res_cookie "accessToken" accessToken true
                        (24 * 60 * 60 * 1000) secure ;;
             secure <- production ;;
             res_cookie "refreshToken" refreshToken true
                        (7 * 24 * 60 * 60 * 1000) secure ;;
             ret (Returned
                    (Response data true false (JStr "Auth successful") 200))
       end)
      next.

(** exports.getMe *)
Definition getMe (req : Request) : Async Reply :=
  let data := JObj [("user", reqUser req)] in
  ret (Returned
         (Response data true false
                   (JStr "Successfully found user profile") 200)).

(** exports.requestPasswordReset *)
Definition requestPasswordReset (req : Request) : Async Reply :=
  let email := jprop "email" (body req) in
  let errors := validationResult req in
  if negb (isEmpty errors) then
    let message := jget "msg" (nth 0 errors JUndefined) in
    let responseObject := Response (JObj []) false true message 422 in
    let responseObject :=
      set_oldInput (JObj [("email", jprop "email" (body req))])
                   responseObject in
    let responseObject :=
      set_validationErrors (JArr errors) responseObject in
    ret (Returned responseObject)
  else
    try_catch
      (found <- User.findOne (User.ByEmail email) ;;
       match found with
       | None =>
           let message :=
             JStr ("The email address " ++ toString email
                   ++ " is not associated with any account. Double-check your email address and try again.") in
           ret (Returned (Response (JObj []) false true message 401))
       | Some user =>
           token <- Token.findOne (Token.mkFilter (_id user) None) ;;
           token <- match token with
                    | Some token => ret token
                    | None =>
                        token <- Token.new C (_id user) ;;
                        token <- Token.generatePasswordReset C token ;;
                        Token.save token
                    end ;;
           let link :=
             CLIENT_URL C ++ "/reset-password/token="
             ++ toString (resetPasswordToken token)
             ++ "&id=" ++ userId token in
           sendResetPasswordEmail email (firstName user) link ;;
           ret (Returned
                  (Response (resetPasswordToken token) true false
                     (JStr ("A reset email has been sent to "
                            ++ toString email ++ "."))
                     200))
       end)
      next.

(** exports.resetPassword *)
Definition resetPassword (req : Request) : Async Reply :=
  let errors := validationResult req in
  if negb (isEmpty errors) then
    let message := jget "msg" (nth 0 errors JUndefined) in
    let responseObject := Response (JObj []) false true message 422 in
    let responseObject :=
      set_oldInput (JObj [("email", jprop "email" (body req))])
                   responseObject in
    let responseObject :=
      set_validationErrors (JArr errors) responseObject in
    ret (Returned responseObject)
  else
    try_catch
      (found <- User.findById C (jprop "userId" (params req)) ;;
       match found with
       | None => ret (Returned (Response (JObj []) false true invalidToken 400))
       | Some user =>
           passwordResetToken <-
             Token.findOne
               (Token.mkFilter (_id user) (Some (jprop "token" (params req)))) ;;
           match passwordResetToken with
           | None =>
               ret (Returned (Response (JObj []) false true invalidToken 400))
           | Some passwordResetToken =>
               let user := set_password (jprop "password" (body req)) user in
               let user :=
                 set_confirmPassword (jprop "confirmPassword" (body req))
                                     user in
               user <- User.save C user ;;
               Token.delete C passwordResetToken ;;
               let link := CLIENT_URL C ++ "/login" in
               sendConfirmResetPasswordEmail
                 (email user) (firstName user) link ;;
               ret (Returned
                      (Response (JObj []) true false
                         (JStr "Your password has been Password Reset Successfully updated.")
                         200))
           end
       end)
      next.

(** exports.logout.  The statement on line 309 of the source is the bare
    identifier [s]: no scope of the module binds it, so it is looked up
    on the global object. *)
Definition logout (req : Request) : Async Reply :=
  let refreshToken := jprop "refreshToken" (body req) in
  if negb (truthy refreshToken) then
    ret (Returned
           (Response (JObj []) false true
              (JStr "Bad Request Please provide a valid  refreshToken.") 422))
  else
    try_catch
      (userId <- settle (verifyRefreshToken C refreshToken) ;;
       found <- User.findById C userId ;;
       match found with
       | None =>
           ret (Returned
                  (Response (JArr []) false true (JStr "Unauthenticated") 400))
       | Some user =>
           globalIdentifier "s" ;;
           res_clearCookie "accessToken" ;;
           res_clearCookie "refreshToken" ;;
           ret (Returned
                  (Response (JArr []) false true
                     (JStr "Successfully logged out 😏 🍀") 200))
       end)
      next.

End Service.

(** ** A concrete set of collaborators and sample data *)

Module Demo.

Definition prefixed (p : string) (v : JsValue) : Completion JsValue :=
  match v with
  | JStr s =>
      if String.prefix p s
      then Normal (JStr (substring (String.length p)
                                   (String.length s - String.length p) s))
      else Throw (mkError "JsonWebTokenError" "invalid token" JUndefined)
  | _ => Throw (mkError "JsonWebTokenError" "jwt must be a string" JUndefined)
  end.

Definition hash (salt : nat) (plain : JsValue) : JsValue :=
  JStr ("$2b$" ++ NilZero.string_of_uint (Nat.to_uint salt) ++ "$"
        ++ toString plain).

Definition compare (u : UserDoc) (candidate : JsValue) : Completion bool :=
  match candidate, password u with
  | JStr c, JStr h =>
      Normal (String.eqb (substring (String.length h - String.length c)
                                    (String.length c) h) c
              && String.prefix "$2b$" h)
  | _, _ => Throw (mkError "Error" "data and hash arguments required"
                           JUndefined)
  end.

(** The sample schema asks for a password of six characters or more. *)
Definition validate (u : UserDoc) : option JsError :=
  match password u with
  | JStr p =>
      if Nat.leb 6 (String.length p) then None
      else Some (mkError "ValidationError" "password is too short" JUndefined)
  | _ => Some (mkError "ValidationError" "password is required" JUndefined)
  end.

Definition cast (v : JsValue) : option ObjectId :=
  match v with
  | JStr s => if String.eqb s "" then None else Some s
  | JOid i => Some i
  | _ => None
  end.

Definition collaborators : Collaborators :=
  mkCollaborators
    "https://client.example"
    (fun i => Normal ("access." ++ i))
    (fun i => Normal ("refresh." ++ i))
    (prefixed "refresh.")
    (fun u => Normal ("jwt." ++ _id u))
    compare
    hash
    validate
    (fun v => v)
    cast
    (fun n => "oid" ++ NilZero.string_of_uint (Nat.to_uint n))
    (fun n => "r4nd0m" ++ NilZero.string_of_uint (Nat.to_uint n))
    (fun _ => None).

Definition alice : UserDoc :=
  mkUser "a1" (JStr "Alice") (JStr "Doe") (JStr "a@x.com")
         (hash 0 (JStr "Secret1!")) (JStr "Secret1!") (JStr "1990-01-01")
         (JStr "female") JUndefined (JStr "user") (JNum 1) (JNum 1) false.

Definition aliceToken : TokenDoc := mkToken "t1" "a1" (JStr "r4nd0m7").

Definition emptyWorld : World :=
  mkWorld [] [] [] [] 0 1000 (JStr "development") [].

Definition world : World :=
  mkWorld [alice] [aliceToken] [] [] 10 1000 (JStr "development") [].

Definition request (body params : list (string * JsValue)) : Request :=
  mkRequest body params JUndefined [].

Definition signupBody : list (string * JsValue) :=
  [("firstName", JStr "Bob"); ("lastName", JStr "Roe");
   ("email", JStr "b@x.com"); ("password", JStr "Secret1!");
   ("confirmPassword", JStr "Secret1!"); ("dateOfBirth", JStr "1991-02-03");
   ("gender", JStr "male")].

Definition logoutRequest : Request :=
  request [("refreshToken", JStr "refresh.a1")] [].

Definition loginUnknown : Request :=
  request [("email", JStr "nobody@x.com"); ("password", JStr "Secret1!")] [].

Definition loginWrongPassword : Request :=
  request [("email", JStr "a@x.com"); ("password", JStr "Wrong-1!")] [].

Definition loginAlice : Request :=
  request [("email", JStr "a@x.com"); ("password", JStr "Secret1!")] [].

Definition forgotAlice : Request := request [("email", JStr "a@x.com")] [].

Definition resetAlice : Request :=
  request [("password", JStr "NewSecret2!");
           ("confirmPassword", JStr "NewSecret2!")]
          [("userId", JStr "a1"); ("token", JStr "r4nd0m7")].


Definition resetWrongToken : Request :=
  request [("password", JStr "NewSecret2!");
           ("confirmPassword", JStr "NewSecret2!")]
          [("userId", JStr "a1"); ("token", JStr "guess")].

Definition resetShortPassword : Request :=
  request [("password", JStr "abc"); ("confirmPassword", JStr "abc")]
          [("userId", JStr "a1"); ("token", JStr "r4nd0m7")].

Definition signupAliceAgain : Request :=
  request [("firstName", JStr "Alicia"); ("lastName", JStr "Doe");
           ("email", JStr "a@x.com"); ("password", JStr "Other-9!");
           ("confirmPassword", JStr "Other-9!")] [].

Definition emailError : JsValue :=
  JObj [("value", JStr "not-an-email");
        ("msg", JStr "Please provide a valid email");
        ("param", JStr "email"); ("location", JStr "body")].

Definition signupRejected : Request :=
  mkRequest
    [("firstName", JStr "Bob"); ("lastName", JStr "Roe");
     ("email", JStr "not-an-email"); ("password", JStr "Secret1!");
     ("confirmPassword", JStr "Secret1!"); ("dateOfBirth", JStr "1991-02-03");
     ("gender", JStr "male")]
    [] JUndefined [emailError].

(** The world after Alice's reset went through. *)
Definition worldAfterReset : World :=
  snd (resetPassword collaborators resetAlice world).

End Demo.

(** ** Properties of worlds and collaborators used by the statements *)

(** The reset-token store's invariant: at most one token per user. *)
Definition oneTokenPerUser (w : World) : Prop :=
  NoDup (map userId (tokens w)).


(** The document [signup] builds from a request body with identity [oid]. *)
Definition signupDocument (C : Collaborators) (oid : ObjectId)
    (b : list (string * JsValue)) : UserDoc :=
  User.new C oid (jprop "firstName" b) (jprop "lastName" b)
           (jprop "email" b) (jprop "password" b)
           (jprop "confirmPassword" b) (jprop "dateOfBirth" b)
           (jprop "gender" b) (jprop "cart" b) (jprop "role" b).

(** The document [resetPassword] saves: the user with the password and
    the confirmation of the request body assigned. *)
Definition resetDocument (b : list (string * JsValue)) (u : UserDoc)
  : UserDoc :=
  set_confirmPassword (jprop "confirmPassword" b)
                      (set_password (jprop "password" b) u).

(** The public fields and the three tokens, as [login] lays them out. *)
Definition loginData (u : UserDoc) (token accessToken refreshToken : string)
  : JsValue :=
  JObj [("user",
    JObj [("_id", JOid (_id u));
          ("firstName", firstName u);
          ("lastName", lastName u);
          ("email", email u);
          ("dateOfBirth", dateOfBirth u);
          ("gender", gender u);
          ("createdAt", createdAt u);
          ("updatedAt", updatedAt u);
          ("role", role u);
          ("token", JStr token);
          ("accessToken", JStr accessToken);
          ("refreshToken", JStr refreshToken)])].

(** The envelopes [signup] answers with. *)
Definition registered (token accessToken refreshToken : string) : Envelope :=
  Response (JObj [("token", JStr token); ("accessToken", JStr accessToken);
                  ("refreshToken", JStr refreshToken)])
           true false (JStr "Registered Successfully") 201.

Definition duplicateEmail (newUser : UserDoc) : Envelope :=
  Response (JObj []) false true
    (JStr ("E-Mail address  " ++ toString (email newUser)
           ++ " is already exists, please pick a different one."))
    409.

(** The catch block of [signup]. *)
Definition signupFailed (newUser : UserDoc) (error : JsError) : Async Reply :=
  if jeqb (errCode error) (JNum 11000)
  then ret (Returned (duplicateEmail newUser))
  else next error.

(** The envelopes [resetPassword] answers with. *)
Definition resetDone : Envelope :=
  Response (JObj []) true false
    (JStr "Your password has been Password Reset Successfully updated.") 200.

Definition resetRefused : Envelope :=
  Response (JObj []) false true
    (JStr "Password reset token is invalid or has expired.") 400.

(** The token collection once [passwordResetToken.delete()] has run. *)
Definition consume (t : TokenDoc) (w : World) : World :=
  set_tokens
    (filter (fun x => negb (String.eqb (tokenId x) (tokenId t))) (tokens w)) w.

(** The link and the envelope of [requestPasswordReset]. *)
Definition resetLink (C : Collaborators) (t : TokenDoc) : string :=
  CLIENT_URL C ++ "/reset-password/token="
  ++ toString (resetPasswordToken t) ++ "&id=" ++ userId t.

Definition resetSent (email : JsValue) (t : TokenDoc) : Envelope :=
  Response (resetPasswordToken t) true false
    (JStr ("A reset email has been sent to " ++ toString email ++ ".")) 200.

(** A call on the service, and a session: calls served one after the
    other, each in the world the one before left. *)
Inductive Call :=
| Signup (req : Request)
| Login (req : Request)
| GetMe (req : Request)
| RequestPasswordReset (req : Request)
| ResetPassword (req : Request)
| Logout (req : Request).

Definition handle (C : Collaborators) (c : Call) : Async Reply :=
  match c with
  | Signup req => signup C req
  | Login req => login C req
  | GetMe req => getMe req
  | RequestPasswordReset req => requestPasswordReset C req
  | ResetPassword req => resetPassword C req
  | Logout req => logout C req
  end.

Fixpoint serve (C : Collaborators) (calls : list Call) (w : World) : World :=
  match calls with
  | [] => w
  | c :: rest => serve C rest (snd (handle C c w))
  end.

(** Unfolds the monad and the thin wrappers, so that a handler runs one
    step further. *)
Ltac run :=
  unfold bind, try_catch, ret, throw, gets, settle, modify, next,
    User.findOne, User.findById, Token.findOne, Token.delete,
    res_cookie, res_clearCookie, production,
    sendResetPasswordEmail, sendConfirmResetPasswordEmail; simpl.

(** ** Calls, by what they read and write *)

Definition requestOf (c : Call) : Request :=
  match c with
  | Signup req | Login req | GetMe req
  | RequestPasswordReset req | ResetPassword req | Logout req => req
  end.

(** The handlers that open with the [validationResult] check. *)
Definition validates (c : Call) : bool :=
  match c with
  | Signup _ | Login _ | RequestPasswordReset _ | ResetPassword _ => true
  | GetMe _ | Logout _ => false
  end.

(** The handlers that call [save] on a user, call [save] or [delete] on
    a token, hand a mail to the mailer, call a method of [res]. *)
Definition writesUsers (c : Call) : bool :=
  match c with Signup _ | ResetPassword _ => true | _ => false end.

Definition writesTokens (c : Call) : bool :=
  match c with RequestPasswordReset _ | ResetPassword _ => true | _ => false end.

Definition sendsMail (c : Call) : bool :=
  match c with RequestPasswordReset _ | ResetPassword _ => true | _ => false end.

Definition callsRes (c : Call) : bool :=
  match c with Login _ | Logout _ => true | _ => false end.

(** The three [res.cookie] calls of [login], in the order they are made. *)
Definition loginCookies (secure : bool) (token accessToken refreshToken : string)
  : list ResCall :=
  [SetCookie "authToken" token true 31536000000 secure;
   SetCookie "accessToken" accessToken true 86400000 secure;
   SetCookie "refreshToken" refreshToken true 604800000 secure].

(** The two [res.clearCookie] calls of [logout]. *)
Definition logoutCookies : list ResCall :=
  [ClearCookie "accessToken"; ClearCookie "refreshToken"].

(** Values of [req.body.refreshToken] that [!refreshToken] lets through
    to the 422 answer. *)
Definition falsyValues : list JsValue :=
  [JUndefined; JNull; JStr ""; JNum 0; JBool false].

(** The envelopes [logout] and [requestPasswordReset] refuse with. *)
Definition missingRefreshToken : Envelope :=
  Response (JObj []) false true
    (JStr "Bad Request Please provide a valid  refreshToken.") 422.

Definition unauthenticated : Envelope :=
  Response (JArr []) false true (JStr "Unauthenticated") 400.

Definition unknownEmail (email : JsValue) : Envelope :=
  Response (JObj []) false true
    (JStr ("The email address " ++ toString email
           ++ " is not associated with any account. Double-check your email address and try again."))
    401.

(** The status codes the service answers with. *)
Definition statusCodes : list Z := [200; 201; 400; 401; 409; 422].

(** ** More sample data *)

Module Samples.

Definition passwordError : JsValue :=
  JObj [("value", JStr "pw"); ("msg", JStr "Password is too short");
        ("param", JStr "password"); ("location", JStr "body")].

Definition loginRejected : Request :=
  mkRequest [("email", JStr "not-an-email"); ("password", JStr "pw")]
            [] JUndefined [Demo.emailError; passwordError].

Definition forgotRejected : Request :=
  mkRequest [("email", JStr "not-an-email")] [] JUndefined [Demo.emailError].

Definition resetRejected : Request :=
  mkRequest [("email", JStr "a@x.com"); ("password", JStr "pw");
             ("confirmPassword", JStr "pw")]
            [("userId", JStr "a1"); ("token", JStr "r4nd0m7")]
            JUndefined [passwordError].

Definition forgotNobody : Request :=
  Demo.request [("email", JStr "nobody@x.com")] [].

Definition resetNobody : Request :=
  Demo.request [("password", JStr "NewSecret2!");
                ("confirmPassword", JStr "NewSecret2!")]
               [("userId", JStr "zz"); ("token", JStr "r4nd0m7")].

Definition logoutNoToken : Request := Demo.request [("refreshToken", JStr "")] [].

Definition logoutForged : Request :=
  Demo.request [("refreshToken", JStr "forged")] [].

Definition logoutDeleted : Request :=
  Demo.request [("refreshToken", JStr "refresh.gone")] [].

Definition signupShortPassword : Request :=
  Demo.request [("firstName", JStr "Bob"); ("email", JStr "b@x.com");
                ("password", JStr "abc"); ("confirmPassword", JStr "abc")] [].

Definition signerDown : JsError :=
  mkError "Error" "secretOrPrivateKey must have a value" JUndefined.

(** The sample collaborators with a token helper that rejects when it is
    asked for a refresh token. *)
Definition brokenSigner : Collaborators :=
  mkCollaborators
    (CLIENT_URL Demo.collaborators)
    (signAccessToken Demo.collaborators)
    (fun _ => Throw signerDown)
    (verifyRefreshToken Demo.collaborators)
    (createJWT Demo.collaborators)
    (comparePassword Demo.collaborators)
    (hashPassword Demo.collaborators)
    (validateUser Demo.collaborators)
    (normalizeEmail Demo.collaborators)
    (castObjectId Demo.collaborators)
    (newObjectId Demo.collaborators)
    (randomBytesHex Demo.collaborators)
    (deleteOne Demo.collaborators).

Definition storeDown : JsError :=
  mkError "MongoNetworkError" "connection closed" JUndefined.

(** The sample collaborators with a token store that rejects deletes. *)
Definition brokenDelete : Collaborators :=
  mkCollaborators
    (CLIENT_URL Demo.collaborators)
    (signAccessToken Demo.collaborators)
    (signRefreshToken Demo.collaborators)
    (verifyRefreshToken Demo.collaborators)
    (createJWT Demo.collaborators)
    (comparePassword Demo.collaborators)
    (hashPassword Demo.collaborators)
    (validateUser Demo.collaborators)
    (normalizeEmail Demo.collaborators)
    (castObjectId Demo.collaborators)
    (newObjectId Demo.collaborators)
    (randomBytesHex Demo.collaborators)
    (fun _ => Some storeDown).

(** A world in production, and one whose user has no reset token yet. *)
Definition production : World :=
  mkWorld [Demo.alice] [Demo.aliceToken] [] [] 10 1000 (JStr "production") [].

Definition noToken : World :=
  mkWorld [Demo.alice] [] [] [] 10 1000 (JStr "development") [].

Definition session : list Call :=
  [RequestPasswordReset Demo.forgotAlice; Login Demo.loginAlice;
   RequestPasswordReset Demo.forgotAlice; ResetPassword Demo.resetAlice;
   RequestPasswordReset Demo.forgotAlice;
   Signup (Demo.request Demo.signupBody []);
   Logout Demo.logoutRequest].

End Samples.

(** ** Sample runs *)

Example signup_then_duplicate :
  let r1 := signup Demo.collaborators (Demo.request Demo.signupBody [])
                   Demo.emptyWorld in
  let r2 := signup Demo.collaborators (Demo.request Demo.signupBody [])
                   (snd r1) in
  (match fst r1 with
   | Normal (Returned e) => (success e, statusCode e, jkeys (payload e))
   | _ => (false, 0, [])
   end,
   match fst r2 with
   | Normal (Returned e) => (success e, isError e, statusCode e)
   | _ => (false, false, 0)
   end)
  = ((true, 201, ["token"; "accessToken"; "refreshToken"]),
     (false, true, 409)).
Proof. vm_compute. reflexivity. Qed.

Example logout_sample :
  logout Demo.collaborators
         (Demo.request [("refreshToken", JStr "refresh.a1")] []) Demo.world
  = (Normal (Forwarded (ReferenceError "s")), Demo.world).
Proof. vm_compute. reflexivity. Qed.

(** ** Equality of values *)

Lemma jeqb_eq : forall a b, jeqb a b = true -> a = b.
Proof.
  fix IH 1.
  intros [| | x | x | x | x | xs | ps] [| | y | y | y | y | ys | qs];
    simpl; try discriminate; try reflexivity; intro H.
  - apply Bool.eqb_prop in H. now subst.
  - apply Z.eqb_eq in H. now subst.
  - apply String.eqb_eq in H. now subst.
  - apply String.eqb_eq in H. now subst.
  - f_equal. revert ys H.
    induction xs as [|x xs IHxs]; intros [|y ys] H;
      try discriminate; try reflexivity.
    apply andb_true_iff in H as [Hx Hr].
    f_equal; [apply IH, Hx | apply IHxs, Hr].
  - f_equal. revert qs H.
    induction ps as [|[k x] ps IHps]; intros [|[k' y] qs] H;
      try discriminate; try reflexivity.
    apply andb_true_iff in H as [Hkx Hr].
    apply andb_true_iff in Hkx as [Hk Hx].
    apply String.eqb_eq in Hk. subst k'.
    f_equal; [f_equal; apply IH, Hx | apply IHps, Hr].
Qed.

Lemma jeqb_refl : forall a, jeqb a a = true.
Proof.
  fix IH 1.
  intros [| | x | x | x | x | xs | ps]; simpl; try reflexivity.
  - now destruct x.
  - apply Z.eqb_refl.
  - apply String.eqb_refl.
  - apply String.eqb_refl.
  - induction xs as [|x xs IHxs]; [reflexivity|].
    now rewrite IH, IHxs.
  - induction ps as [|[k x] ps IHps]; [reflexivity|].
    now rewrite String.eqb_refl, IH, IHps.
Qed.

Lemma jeqb_neq a b : a <> b -> jeqb a b = false.
Proof.
  intro H. destruct (jeqb a b) eqn:E; [|reflexivity].
  now apply jeqb_eq in E.
Qed.

(** ** Lists: lookups, replacement, uniqueness *)

Lemma find_none_iff {A} (p : A -> bool) (l : list A) :
  find p l = None <-> forall x, In x l -> p x = false.
Proof.
  split.
  - apply find_none.
  - induction l as [|a l IHl]; intro H; [reflexivity|].
    simpl. rewrite (H a (or_introl eq_refl)).
    apply IHl. intros x Hx. apply H. now right.
Qed.


Lemma byId_id (oid : ObjectId) (w : World) (u : UserDoc) :
  User.byId oid w = Some u -> _id u = oid /\ In u (users w).
Proof.
  unfold User.byId. intro H. apply find_some in H as [Hin Heq].
  now apply String.eqb_eq in Heq.
Qed.

Lemma find_replace (doc old : UserDoc) (us : list UserDoc) :
  find (fun u => String.eqb (_id u) (_id doc)) us = Some old ->
  find (fun u => String.eqb (_id u) (_id doc)) (User.replace doc us)
  = Some doc.
Proof.
  induction us as [|a us IHus]; simpl; [discriminate|].
  destruct (String.eqb (_id a) (_id doc)) eqn:E.
  - intros _. now rewrite String.eqb_refl.
  - intro H. rewrite E. now apply IHus.
Qed.

(** ** Input validation *)

Lemma validated (req : Request) :
  validationResult req = [] -> negb (isEmpty (validationResult req)) = false.
Proof. intros ->. reflexivity. Qed.

Lemma rejected (req : Request) :
  validationResult req <> [] -> negb (isEmpty (validationResult req)) = true.
Proof. destruct (validationResult req); [congruence | reflexivity]. Qed.

(** ** Login *)

Section LoginFacts.
Variable C : Collaborators.

Lemma login_unknown_email (req : Request) (w : World) :
  validationResult req = [] ->
  User.byEmail (jprop "email" (body req)) w = None ->
  login C req w
  = (Normal (Returned (Response (JObj []) false true authFailed 401)), w).
Proof.
  intros Hv Hnone. unfold login. rewrite (validated req Hv).
  run. now rewrite Hnone.
Qed.

Lemma login_wrong_password (req : Request) (w : World) (u : UserDoc) :
  validationResult req = [] ->
  User.byEmail (jprop "email" (body req)) w = Some u ->
  comparePassword C u (jprop "password" (body req)) = Normal false ->
  login C req w
  = (Normal (Returned (Response (JObj []) false true authFailed 401)), w).
Proof.
  intros Hv Hsome Hcmp. unfold login. rewrite (validated req Hv).
  run. now rewrite Hsome, Hcmp.
Qed.

(** C2. A login naming an e-mail address that no account has and a login
    naming an existing account with a password that does not compare
    equal to its hash (both past input validation) answer with envelopes
    of status 401 whose messages are the same string, 'Auth Failed
    (Invalid Credentials)'; indeed the two envelopes are equal, and
    neither call changes the world. *)
Theorem login_failures_indistinguishable
    (reqA reqB : Request) (wA wB : World) (u : UserDoc) :
  validationResult reqA = [] ->
  validationResult reqB = [] ->
  User.byEmail (jprop "email" (body reqA)) wA = None ->
  User.byEmail (jprop "email" (body reqB)) wB = Some u ->
  comparePassword C u (jprop "password" (body reqB)) = Normal false ->
  exists eA eB,
    login C reqA wA = (Normal (Returned eA), wA)
    /\ login C reqB wB = (Normal (Returned eB), wB)
    /\ statusCode eA = 401 /\ statusCode eB = 401
    /\ message eA = JStr "Auth Failed (Invalid Credentials)"
    /\ message eB = message eA
    /\ eA = eB.
Proof.
  intros HvA HvB Hnone Hsome Hcmp.
  exists (Response (JObj []) false true authFailed 401),
         (Response (JObj []) false true authFailed 401).
  rewrite (login_unknown_email reqA wA HvA Hnone).
  rewrite (login_wrong_password reqB wB u HvB Hsome Hcmp).
  repeat split.
Qed.

(** C8. A login with correct credentials (past input validation, the
    signer issuing the three tokens) answers with status 200; its payload
    is one object [user] holding the nine public fields of the account
    and the three tokens; no property of it is the account's password or
    its confirmation, and the payload is the same whatever the stored
    hash and confirmation are. *)
Theorem login_success_public_payload
    (req : Request) (w : World) (u : UserDoc) (token access refresh : string) :
  validationResult req = [] ->
  User.byEmail (jprop "email" (body req)) w = Some u ->
  comparePassword C u (jprop "password" (body req)) = Normal true ->
  createJWT C u = Normal token ->
  signAccessToken C (_id u) = Normal access ->
  signRefreshToken C (_id u) = Normal refresh ->
  exists e w',
    login C req w = (Normal (Returned e), w')
    /\ statusCode e = 200
    /\ payload e = loginData u token access refresh
    /\ jkeys (payload e) = ["user"]
    /\ jkeys (jget "user" (payload e))
       = ["_id"; "firstName"; "lastName"; "email"; "dateOfBirth"; "gender";
          "createdAt"; "updatedAt"; "role";
          "token"; "accessToken"; "refreshToken"]
    /\ ~ In "password" (jkeys (jget "user" (payload e)))
    /\ ~ In "confirmPassword" (jkeys (jget "user" (payload e)))
    /\ (forall hash confirmation,
          payload e
          = loginData (set_confirmPassword confirmation
                         (set_password hash u)) token access refresh)
    /\ users w' = users w /\ tokens w' = tokens w.
Proof.
  intros Hv Hsome Hcmp Hjwt Hacc Href.
  unfold login. rewrite (validated req Hv). run.
  rewrite Hsome, Hcmp. simpl. rewrite Hjwt, Hacc, Href.
  eexists. eexists. split; [reflexivity|].
  simpl. repeat split; try reflexivity.
  - intros [H|[H|[H|[H|[H|[H|[H|[H|[H|[H|[H|[H|[]]]]]]]]]]]]];
      discriminate H.
  - intros [H|[H|[H|[H|[H|[H|[H|[H|[H|[H|[H|[H|[]]]]]]]]]]]]];
      discriminate H.
Qed.

End LoginFacts.

(** ** Saving a user *)

Section SaveFacts.
Variable C : Collaborators.

(** A save never touches the token collection. *)
Lemma save_tokens (doc : UserDoc) (w : World) :
  tokens (snd (User.save C doc w)) = tokens w.
Proof.
  unfold User.save.
  destruct (validateUser C doc); [reflexivity|].
  destruct (isNew doc).
  - destruct (User.duplicates doc w); reflexivity.
  - destruct (User.byId (_id doc) w); [|reflexivity].
    destruct (jeqb _ _); reflexivity.
Qed.

(** A save that throws leaves the user collection as it was. *)
Lemma save_throw_users (doc : UserDoc) (w ws : World) (e : JsError) :
  User.save C doc w = (Throw e, ws) -> users ws = users w.
Proof.
  unfold User.save.
  destruct (validateUser C doc); [now intros [= _ <-]|].
  destruct (isNew doc).
  - destruct (User.duplicates doc w); [now intros [= _ <-] | discriminate].
  - destruct (User.byId (_id doc) w); [|now intros [= _ <-]].
    destruct (jeqb _ _); discriminate.
Qed.

(** A save of a document whose [_id] is already stored, when it succeeds,
    is an update: the stored document is the one found by that [_id]. *)
Lemma save_update (doc u saved : UserDoc) (w ws : World) :
  In u (users w) -> _id u = _id doc ->
  User.save C doc w = (Normal saved, ws) ->
  _id saved = _id doc
  /\ User.byId (_id doc) ws = Some saved
  /\ users ws = User.replace saved (users w).
Proof.
  intros Hin Hid. unfold User.save.
  destruct (validateUser C doc); [discriminate|].
  destruct (isNew doc) eqn:Hnew.
  - assert (Hdup : User.duplicates doc w = true).
    { unfold User.duplicates. apply existsb_exists. exists u. split; auto.
      rewrite Hid, String.eqb_refl. reflexivity. }
    rewrite Hdup. discriminate.
  - destruct (User.byId (_id doc) w) as [old|] eqn:Hold; [|discriminate].
    unfold User.byId in *.
    destruct (jeqb _ _); intros [= <- <-]; simpl;
      (split; [reflexivity|]); (split; [|reflexivity]);
      match goal with
      | |- find _ (User.replace ?d _) = _ =>
          apply (find_replace d old); exact Hold
      end.
Qed.

End SaveFacts.

(** ** ResetPassword *)

Section ResetPasswordFacts.
Variable C : Collaborators.

(** The handler once the user and the token are found: everything hangs
    on the save and, after it, on the delete. *)
Lemma resetPassword_found (req : Request) (w : World) (oid : ObjectId)
    (u : UserDoc) (t : TokenDoc) :
  validationResult req = [] ->
  castObjectId C (jprop "userId" (params req)) = Some oid ->
  User.byId oid w = Some u ->
  Token.lookup (Token.mkFilter (_id u) (Some (jprop "token" (params req)))) w
  = Some t ->
  resetPassword C req w
  = match User.save C (resetDocument (body req) u) w with
    | (Normal saved, ws) =>
        match deleteOne C t with
        | None =>
            (Normal (Returned resetDone),
             add_mail (ConfirmResetPasswordEmail (email saved)
                         (firstName saved) (CLIENT_URL C ++ "/login"))
                      (consume t ws))
        | Some e => (Normal (Forwarded e), ws)
        end
    | (Throw e, ws) => (Normal (Forwarded e), ws)
    end.
Proof.
  intros Hv Hcast Hu Ht. unfold resetPassword. rewrite (validated req Hv).
  run. rewrite Hcast. run. rewrite Hu, Ht.
  fold (resetDocument (body req) u).
  destruct (User.save C (resetDocument (body req) u) w) as [[saved|e] ws];
    [|reflexivity].
  simpl. destruct (deleteOne C t); reflexivity.
Qed.

Lemma resetPassword_no_token (req : Request) (w : World) (oid : ObjectId)
    (u : UserDoc) :
  validationResult req = [] ->
  castObjectId C (jprop "userId" (params req)) = Some oid ->
  User.byId oid w = Some u ->
  Token.lookup (Token.mkFilter (_id u) (Some (jprop "token" (params req)))) w
  = None ->
  resetPassword C req w = (Normal (Returned resetRefused), w).
Proof.
  intros Hv Hcast Hu Ht. unfold resetPassword. rewrite (validated req Hv).
  run. rewrite Hcast. run. now rewrite Hu, Ht.
Qed.

(** C5. A reset request (past input validation) whose user id names a
    stored user but whose token string equals the token string of no
    stored token of that user is answered with status 400 and the message
    'Password reset token is invalid or has expired.'; the world, and
    with it the user's stored password, is left as it was. *)
Theorem resetPassword_wrong_token
    (req : Request) (w : World) (oid : ObjectId) (u : UserDoc) :
  validationResult req = [] ->
  castObjectId C (jprop "userId" (params req)) = Some oid ->
  User.byId oid w = Some u ->
  (forall t, In t (tokens w) -> userId t = _id u ->
             resetPasswordToken t <> jprop "token" (params req)) ->
  exists e w',
    resetPassword C req w = (Normal (Returned e), w')
    /\ statusCode e = 400
    /\ message e = JStr "Password reset token is invalid or has expired."
    /\ isError e = true
    /\ users w' = users w
    /\ User.byId oid w' = Some u
    /\ w' = w.
Proof.
  intros Hv Hcast Hu Hwrong.
  exists resetRefused, w.
  rewrite (resetPassword_no_token req w oid u Hv Hcast Hu).
  - repeat split. exact Hu.
  - unfold Token.lookup. apply find_none_iff. intros t Hin.
    unfold Token.matches. simpl.
    destruct (String.eqb (userId t) (_id u)) eqn:E; [|reflexivity].
    apply String.eqb_eq in E. simpl.
    apply jeqb_neq. now apply Hwrong.
Qed.



(** C10. In a reset whose user and token are found, everything hangs on
    the save of the user: when the save throws, the error goes to [next],
    the user collection is as before and the reset token is still stored;
    and whenever the handler has removed the token, the save had returned
    and the stored user is the saved document. *)
Theorem resetPassword_persist_then_consume
    (req : Request) (w : World) (oid : ObjectId) (u : UserDoc) (t : TokenDoc) :
  validationResult req = [] ->
  castObjectId C (jprop "userId" (params req)) = Some oid ->
  User.byId oid w = Some u ->
  Token.lookup (Token.mkFilter (_id u) (Some (jprop "token" (params req)))) w
  = Some t ->
  (forall e ws,
      User.save C (resetDocument (body req) u) w = (Throw e, ws) ->
      resetPassword C req w = (Normal (Forwarded e), ws)
      /\ tokens ws = tokens w /\ In t (tokens ws)
      /\ users ws = users w)
  /\ (forall reply w',
         resetPassword C req w = (Normal reply, w') ->
         ~ In t (tokens w') ->
         exists saved ws,
           User.save C (resetDocument (body req) u) w = (Normal saved, ws)
           /\ reply = Returned resetDone
           /\ users w' = users ws
           /\ User.byId oid w' = Some saved).
Proof.
  intros Hv Hcast Hu Ht.
  pose proof (resetPassword_found req w oid u t Hv Hcast Hu Ht) as Hrun.
  pose proof (save_tokens C (resetDocument (body req) u) w) as Hts.
  assert (Hint : In t (tokens w)).
  { unfold Token.lookup in Ht. now apply find_some in Ht as [? _]. }
  split.
  - intros e ws Hsave. rewrite Hsave in Hrun, Hts. simpl in Hts.
    split; [exact Hrun|]. split; [exact Hts|]. split.
    + now rewrite Hts.
    + exact (save_throw_users C _ w ws e Hsave).
  - intros reply w' Hreply Hgone. rewrite Hreply in Hrun.
    destruct (User.save C (resetDocument (body req) u) w) as [[saved|e] ws]
      eqn:Hsave.
    + simpl in Hts. destruct (deleteOne C t).
      { injection Hrun as _ ->. rewrite Hts in Hgone. tauto. }
      injection Hrun as -> ->. exists saved, ws.
      split; [reflexivity|]. split; [reflexivity|]. split; [reflexivity|].
      destruct (byId_id oid w u Hu) as [Hid Hin].
      destruct (save_update C (resetDocument (body req) u) u saved w ws
                            Hin eq_refl Hsave) as (_ & Hfound & _).
      simpl in Hfound. now rewrite Hid in Hfound.
    + injection Hrun as _ ->. simpl in Hts. rewrite Hts in Hgone. tauto.
Qed.

End ResetPasswordFacts.

(** ** RequestPasswordReset *)

Section RequestPasswordResetFacts.
Variable C : Collaborators.

(** With a token already stored for the user, the handler reads the
    store, mails the link and answers with the stored token string. *)
Lemma requestPasswordReset_reuse (req : Request) (w : World)
    (u : UserDoc) (t : TokenDoc) :
  validationResult req = [] ->
  User.byEmail (jprop "email" (body req)) w = Some u ->
  Token.lookup (Token.mkFilter (_id u) None) w = Some t ->
  requestPasswordReset C req w
  = (Normal (Returned (resetSent (jprop "email" (body req)) t)),
     add_mail (ResetPasswordEmail (jprop "email" (body req)) (firstName u)
                                  (resetLink C t)) w).
Proof.
  intros Hv Hu Ht. unfold requestPasswordReset. rewrite (validated req Hv).
  run. now rewrite Hu, Ht.
Qed.

(** C3. For an account that has a stored reset token, two reset requests
    in a row for its e-mail address (both past input validation, nothing
    in between) both succeed with status 200 and both carry, as payload,
    the token string of that stored token; the token collection is the
    same before, between and after. *)
Theorem requestPasswordReset_twice_same_token
    (req1 req2 : Request) (w : World) (u : UserDoc) (t : TokenDoc) :
  validationResult req1 = [] ->
  validationResult req2 = [] ->
  jprop "email" (body req2) = jprop "email" (body req1) ->
  User.byEmail (jprop "email" (body req1)) w = Some u ->
  Token.lookup (Token.mkFilter (_id u) None) w = Some t ->
  exists e1 w1 e2 w2,
    requestPasswordReset C req1 w = (Normal (Returned e1), w1)
    /\ requestPasswordReset C req2 w1 = (Normal (Returned e2), w2)
    /\ statusCode e1 = 200 /\ statusCode e2 = 200
    /\ success e1 = true /\ success e2 = true
    /\ payload e1 = resetPasswordToken t
    /\ payload e2 = payload e1
    /\ tokens w1 = tokens w /\ tokens w2 = tokens w.
Proof.
  intros Hv1 Hv2 Hsame Hu Ht.
  rewrite (requestPasswordReset_reuse req1 w u t Hv1 Hu Ht).
  eexists. eexists. eexists. eexists.
  split; [reflexivity|]. split.
  - apply (requestPasswordReset_reuse req2 _ u t Hv2).
    + rewrite Hsame. exact Hu.
    + exact Ht.
  - repeat split.
Qed.

(** The handler keeps the invariant of the token store: it adds a token
    for a user only when it found none. *)
Lemma requestPasswordReset_oneTokenPerUser (req : Request) (w : World) :
  oneTokenPerUser w ->
  oneTokenPerUser (snd (requestPasswordReset C req w)).
Proof.
  intro Hinv. unfold requestPasswordReset.
  destruct (negb (isEmpty (validationResult req))); [exact Hinv|].
  run.
  destruct (User.byEmail (jprop "email" (body req)) w) as [u|]; [|exact Hinv].
  unfold Token.lookup.
  destruct (find (Token.matches (Token.mkFilter (_id u) None)) (tokens w))
    as [t|] eqn:Ht; [exact Hinv|].
  unfold Token.new, Token.generatePasswordReset, Token.save, ObjectId_new.
  run.
  destruct (existsb _ (tokens w)); [exact Hinv|].
  unfold oneTokenPerUser in *. simpl.
  rewrite map_app. simpl.
  apply NoDup_app; [exact Hinv | repeat constructor; simpl; tauto |].
  intros x Hx [<-|[]].
  apply in_map_iff in Hx as (t & Hid & Hin).
  pose proof (find_none _ _ Ht t Hin) as Hm.
  unfold Token.matches in Hm. simpl in Hm.
  rewrite Hid, String.eqb_refl in Hm. discriminate.
Qed.

End RequestPasswordResetFacts.

(** ** Signup *)

Section SignupFacts.
Variable C : Collaborators.

Lemma signup_validated (req : Request) (w : World) :
  validationResult req = [] ->
  signup C req w
  = let newUser := signupDocument C (newObjectId C (entropy w)) (body req) in
    match User.save C newUser (tick_entropy w) with
    | (Normal user, w1) =>
        match createJWT C user with
        | Normal token =>
            match signAccessToken C (_id user) with
            | Normal accessToken =>
                match signRefreshToken C (_id user) with
                | Normal refreshToken =>
                    (Normal (Returned (registered token accessToken
                                                  refreshToken)), w1)
                | Throw e => signupFailed newUser e w1
                end
            | Throw e => signupFailed newUser e w1
            end
        | Throw e => signupFailed newUser e w1
        end
    | (Throw e, w1) => signupFailed newUser e w1
    end.
Proof.
  intro Hv. unfold signup. rewrite (validated req Hv).
  unfold ObjectId_new. run.
  fold (signupDocument C (newObjectId C (entropy w)) (body req)).
  destruct (User.save C _ (tick_entropy w)) as [[user|e] w1];
    [|reflexivity].
  destruct (createJWT C user); [|reflexivity].
  destruct (signAccessToken C (_id user)); [|reflexivity].
  destruct (signRefreshToken C (_id user)); reflexivity.
Qed.

(** C6. A signup (past input validation, the schema validators accepting
    the new document) whose e-mail address is that of a stored account
    meets the store's duplicate-key error and is answered with an
    envelope with isError set, success unset, status 409 and a message
    that names that address; the user collection, and with it the
    password hash of the stored account, is unchanged. *)
Theorem signup_duplicate_email
    (req : Request) (w : World) (account : UserDoc) :
  validationResult req = [] ->
  validateUser C (signupDocument C (newObjectId C (entropy w)) (body req))
  = None ->
  In account (users w) ->
  email account = normalizeEmail C (jprop "email" (body req)) ->
  exists e w',
    signup C req w = (Normal (Returned e), w')
    /\ isError e = true /\ success e = false
    /\ statusCode e = 409
    /\ message e
       = JStr ("E-Mail address  " ++ toString (email account)
               ++ " is already exists, please pick a different one.")
    /\ users w' = users w
    /\ In account (users w').
Proof.
  intros Hv Hschema Hin Hemail.
  rewrite (signup_validated req w Hv). cbv zeta.
  unfold User.save. rewrite Hschema. simpl isNew. cbv iota.
  assert (Hdup : User.duplicates
            (signupDocument C (newObjectId C (entropy w)) (body req))
            (tick_entropy w) = true).
  { unfold User.duplicates. apply existsb_exists. exists account.
    split; [exact Hin|]. simpl. rewrite Hemail, jeqb_refl.
    apply orb_true_r. }
  rewrite Hdup. unfold signupFailed, duplicateEmail. simpl.
  eexists. eexists. split; [reflexivity|].
  simpl. rewrite Hemail. repeat split. exact Hin.
Qed.


(** C9, as the code has it. A signup that fails input validation is
    answered, without touching the world, with status 422 and the [msg]
    of the first validation error as message; the envelope carries the
    whole list of errors, and its oldInput echoes seven fields of the
    body as submitted: firstName, lastName, email, password,
    confirmPassword, dateOfBirth and gender (cart and role are left
    out). *)
Theorem signup_rejected_echoes_input
    (req : Request) (w : World) (first : JsValue) (others : list JsValue) :
  validationResult req = first :: others ->
  exists e,
    signup C req w = (Normal (Returned e), w)
    /\ statusCode e = 422
    /\ isError e = true /\ success e = false
    /\ message e = jget "msg" first
    /\ validationErrors e = JArr (first :: others)
    /\ oldInput e
       = JObj [("firstName", jprop "firstName" (body req));
               ("lastName", jprop "lastName" (body req));
               ("email", jprop "email" (body req));
               ("password", jprop "password" (body req));
               ("confirmPassword", jprop "confirmPassword" (body req));
               ("dateOfBirth", jprop "dateOfBirth" (body req));
               ("gender", jprop "gender" (body req))].
Proof.
  intro Hv. unfold signup. rewrite Hv. simpl.
  eexists. split; [reflexivity|]. simpl. repeat split.
Qed.

End SignupFacts.

(** ** The token store across a session *)

Section TokenStore.
Variable C : Collaborators.

(** Dropping tokens cannot give a user a second one. *)
Lemma userIds_filter (keep : TokenDoc -> bool) (ts : list TokenDoc) :
  NoDup (map userId ts) -> NoDup (map userId (filter keep ts)).
Proof.
  induction ts as [|t ts IHts]; intro Hnd; simpl; [constructor|].
  apply NoDup_cons_iff in Hnd as [Hfresh Hrest].
  destruct (keep t); simpl; [|now apply IHts].
  apply NoDup_cons; [|now apply IHts].
  contradict Hfresh.
  apply in_map_iff in Hfresh as (x & Hx & Hxin).
  apply in_map_iff. exists x. split; [exact Hx|].
  now apply filter_In in Hxin.
Qed.


Lemma signup_tokens (req : Request) (w : World) :
  tokens (snd (signup C req w)) = tokens w.
Proof.
  unfold signup.
  destruct (negb (isEmpty (validationResult req))); [reflexivity|].
  unfold ObjectId_new. run.
  match goal with
  | |- context [User.save C ?d ?w0] =>
      pose proof (save_tokens C d w0) as Hts;
      destruct (User.save C d w0) as [[user|e] ws]
  end; simpl in *.
  - destruct (createJWT C user); simpl;
      [|destruct (jeqb _ _); exact Hts].
    destruct (signAccessToken C (_id user)); simpl;
      [|destruct (jeqb _ _); exact Hts].
    destruct (signRefreshToken C (_id user)); simpl;
      [exact Hts | destruct (jeqb _ _); exact Hts].
  - destruct (jeqb _ _); exact Hts.
Qed.

Lemma login_tokens (req : Request) (w : World) :
  tokens (snd (login C req w)) = tokens w.
Proof.
  unfold login.
  destruct (negb (isEmpty (validationResult req))); [reflexivity|].
  run.
  destruct (User.byEmail _ w) as [u|]; [|reflexivity].
  destruct (comparePassword C u _) as [[|]|]; simpl; try reflexivity.
  destruct (createJWT C u); simpl; [|reflexivity].
  destruct (signAccessToken C (_id u)); simpl; [|reflexivity].
  destruct (signRefreshToken C (_id u)); reflexivity.
Qed.

Lemma logout_tokens (req : Request) (w : World) :
  tokens (snd (logout C req w)) = tokens w.
Proof.
  unfold logout.
  destruct (negb (truthy _)); [reflexivity|].
  run.
  destruct (verifyRefreshToken C _) as [id|]; simpl; [|reflexivity].
  destruct (castObjectId C id); run; [|reflexivity].
  destruct (User.byId _ w); [|reflexivity].
  unfold globalIdentifier. destruct (find _ (globalThis w)); reflexivity.
Qed.

Lemma resetPassword_oneTokenPerUser (req : Request) (w : World) :
  oneTokenPerUser w -> oneTokenPerUser (snd (resetPassword C req w)).
Proof.
  intro Hinv. unfold resetPassword.
  destruct (negb (isEmpty (validationResult req))); [exact Hinv|].
  run.
  destruct (castObjectId C _); run; [|exact Hinv].
  destruct (User.byId _ w) as [u|]; [|exact Hinv].
  destruct (Token.lookup _ w) as [t|]; [|exact Hinv].
  match goal with
  | |- context [User.save C ?d ?w0] =>
      pose proof (save_tokens C d w0) as Hts;
      destruct (User.save C d w0) as [[user|e] ws]
  end; unfold oneTokenPerUser in *; simpl in *.
  - destruct (deleteOne C t); simpl; rewrite Hts;
      [exact Hinv | now apply userIds_filter].
  - now rewrite Hts.
Qed.

(** X23. At most one reset token per user is an invariant of the
    service: whatever calls are served, in whatever order, a world that
    has it keeps it. *)
Theorem serve_oneTokenPerUser (calls : list Call) (w : World) :
  oneTokenPerUser w -> oneTokenPerUser (serve C calls w).
Proof.
  revert w. induction calls as [|c calls IH]; intros w Hinv; [exact Hinv|].
  simpl. apply IH. destruct c as [req|req|req|req|req|req]; simpl.
  - unfold oneTokenPerUser. now rewrite signup_tokens.
  - unfold oneTokenPerUser. now rewrite login_tokens.
  - exact Hinv.
  - now apply requestPasswordReset_oneTokenPerUser.
  - now apply resetPassword_oneTokenPerUser.
  - unfold oneTokenPerUser. now rewrite logout_tokens.
Qed.


End TokenStore.

(** ** Logout *)

Section LogoutFacts.
Variable C : Collaborators.

(** No scope around line 309 binds [s]: the lookup goes to the global
    object. *)
Lemma s_is_free : ~ In "s" (logoutScope ++ moduleScope)%list.
Proof.
  intro H.
  repeat (destruct H as [H|H]; [discriminate H|]). exact H.
Qed.

(** Where the global object has no property [s], a logout whose refresh
    token verifies to a stored user is not answered with an envelope: the
    ReferenceError of line 309 goes to [next] and [res] is not touched. *)
Lemma logout_existing_user_forwards (req : Request) (w : World)
    (id : JsValue) (oid : ObjectId) (u : UserDoc) :
  truthy (jprop "refreshToken" (body req)) = true ->
  verifyRefreshToken C (jprop "refreshToken" (body req)) = Normal id ->
  castObjectId C id = Some oid ->
  User.byId oid w = Some u ->
  find (fun kv => String.eqb (fst kv) "s") (globalThis w) = None ->
  logout C req w = (Normal (Forwarded (ReferenceError "s")), w).
Proof.
  intros Htok Hverify Hcast Hu Hs. unfold logout. rewrite Htok. run.
  rewrite Hverify, Hcast. run. rewrite Hu.
  unfold globalIdentifier. now rewrite Hs.
Qed.

(** Were [s] a property of the global object, the rest of the block
    would clear the two cookies, and only those, and answer with status
    200. *)
Lemma logout_existing_user_if_s_bound (req : Request) (w : World)
    (id : JsValue) (oid : ObjectId) (u : UserDoc) (kv : string * JsValue) :
  truthy (jprop "refreshToken" (body req)) = true ->
  verifyRefreshToken C (jprop "refreshToken" (body req)) = Normal id ->
  castObjectId C id = Some oid ->
  User.byId oid w = Some u ->
  find (fun kv => String.eqb (fst kv) "s") (globalThis w) = Some kv ->
  exists e w',
    logout C req w = (Normal (Returned e), w')
    /\ statusCode e = 200
    /\ resCalls w'
       = (resCalls w ++ [ClearCookie "accessToken";
                         ClearCookie "refreshToken"])%list.
Proof.
  intros Htok Hverify Hcast Hu Hs. unfold logout. rewrite Htok. run.
  rewrite Hverify, Hcast. run. rewrite Hu.
  unfold globalIdentifier. rewrite Hs. simpl.
  eexists. eexists. split; [reflexivity|]. simpl. split; [reflexivity|].
  now rewrite <- app_assoc.
Qed.

End LogoutFacts.

(** C1. The run that breaks the claim: Alice is stored, the refresh token
    of the request verifies to her id, the global object is Node's (no
    [s]).  The claim asks for an envelope with status 200 and the two
    cleared cookies; the handler hands the ReferenceError of line 309 to
    [next], and no call is made on [res]. *)
Theorem logout_existing_user_run :
  User.byId "a1" Demo.world = Some Demo.alice
  /\ verifyRefreshToken Demo.collaborators (JStr "refresh.a1")
     = Normal (JStr "a1")
  /\ logout Demo.collaborators Demo.logoutRequest Demo.world
     = (Normal (Forwarded (ReferenceError "s")), Demo.world)
  /\ resCalls (snd (logout Demo.collaborators Demo.logoutRequest Demo.world))
     = [].
Proof. vm_compute. repeat split. Qed.

(** ** Instances of the statements at the sample data *)

Lemma login_failures_indistinguishable_witness :
  exists eA eB,
    login Demo.collaborators Demo.loginUnknown Demo.world
    = (Normal (Returned eA), Demo.world)
    /\ login Demo.collaborators Demo.loginWrongPassword Demo.world
       = (Normal (Returned eB), Demo.world)
    /\ statusCode eA = 401 /\ statusCode eB = 401
    /\ message eA = JStr "Auth Failed (Invalid Credentials)"
    /\ message eB = message eA
    /\ eA = eB.
Proof.
  apply (login_failures_indistinguishable Demo.collaborators
           Demo.loginUnknown Demo.loginWrongPassword Demo.world Demo.world
           Demo.alice); reflexivity.
Defined.

Lemma login_success_public_payload_witness :
  exists e w',
    login Demo.collaborators Demo.loginAlice Demo.world
    = (Normal (Returned e), w')
    /\ statusCode e = 200
    /\ payload e
       = loginData Demo.alice "jwt.a1" "access.a1" "refresh.a1"
    /\ jkeys (payload e) = ["user"]
    /\ jkeys (jget "user" (payload e))
       = ["_id"; "firstName"; "lastName"; "email"; "dateOfBirth"; "gender";
          "createdAt"; "updatedAt"; "role";
          "token"; "accessToken"; "refreshToken"]
    /\ ~ In "password" (jkeys (jget "user" (payload e)))
    /\ ~ In "confirmPassword" (jkeys (jget "user" (payload e)))
    /\ (forall hash confirmation,
          payload e
          = loginData (set_confirmPassword confirmation
                         (set_password hash Demo.alice))
                      "jwt.a1" "access.a1" "refresh.a1")
    /\ users w' = users Demo.world /\ tokens w' = tokens Demo.world.
Proof.
  apply (login_success_public_payload Demo.collaborators Demo.loginAlice
           Demo.world Demo.alice "jwt.a1" "access.a1" "refresh.a1");
    reflexivity.
Defined.

Lemma requestPasswordReset_twice_same_token_witness :
  exists e1 w1 e2 w2,
    requestPasswordReset Demo.collaborators Demo.forgotAlice Demo.world
    = (Normal (Returned e1), w1)
    /\ requestPasswordReset Demo.collaborators Demo.forgotAlice w1
       = (Normal (Returned e2), w2)
    /\ statusCode e1 = 200 /\ statusCode e2 = 200
    /\ success e1 = true /\ success e2 = true
    /\ payload e1 = JStr "r4nd0m7"
    /\ payload e2 = payload e1
    /\ tokens w1 = tokens Demo.world /\ tokens w2 = tokens Demo.world.
Proof.
  apply (requestPasswordReset_twice_same_token Demo.collaborators
           Demo.forgotAlice Demo.forgotAlice Demo.world Demo.alice
           Demo.aliceToken); reflexivity.
Defined.

Lemma resetPassword_wrong_token_witness :
  exists e w',
    resetPassword Demo.collaborators Demo.resetWrongToken Demo.world
    = (Normal (Returned e), w')
    /\ statusCode e = 400
    /\ message e = JStr "Password reset token is invalid or has expired."
    /\ isError e = true
    /\ users w' = users Demo.world
    /\ User.byId "a1" w' = Some Demo.alice
    /\ w' = Demo.world.
Proof.
  apply (resetPassword_wrong_token Demo.collaborators Demo.resetWrongToken
           Demo.world "a1" Demo.alice); try reflexivity.
  intros t [<-|[]] _. simpl. discriminate.
Defined.


Lemma resetPassword_persist_then_consume_witness :
  resetPassword Demo.collaborators Demo.resetShortPassword Demo.world
  = (Normal (Forwarded
       (mkError "ValidationError" "password is too short" JUndefined)),
     Demo.world)
  /\ In Demo.aliceToken (tokens Demo.world)
  /\ User.byId "a1" Demo.worldAfterReset
     = Some (stored 1000 (Demo.hash 10 (JStr "NewSecret2!"))
               (resetDocument (body Demo.resetAlice) Demo.alice)).
Proof.
  destruct (resetPassword_persist_then_consume Demo.collaborators
              Demo.resetShortPassword Demo.world "a1" Demo.alice
              Demo.aliceToken eq_refl eq_refl eq_refl eq_refl)
    as [Hthrow _].
  destruct (Hthrow (mkError "ValidationError" "password is too short"
                            JUndefined)
                   Demo.world eq_refl) as (Hrun & _ & Hin & _).
  destruct (resetPassword_persist_then_consume Demo.collaborators
              Demo.resetAlice Demo.world "a1" Demo.alice
              Demo.aliceToken eq_refl eq_refl eq_refl eq_refl)
    as [_ Hdone].
  assert (Hgone : ~ In Demo.aliceToken (tokens Demo.worldAfterReset)).
  { vm_compute. intros []. }
  destruct (Hdone (Returned resetDone) Demo.worldAfterReset eq_refl Hgone)
    as (saved & ws & Hsave & _ & _ & Hfound).
  injection Hsave as <- _.
  split; [exact Hrun|]. split; [exact Hin|]. exact Hfound.
Defined.

Lemma signup_duplicate_email_witness :
  exists e w',
    signup Demo.collaborators Demo.signupAliceAgain Demo.world
    = (Normal (Returned e), w')
    /\ isError e = true /\ success e = false
    /\ statusCode e = 409
    /\ message e
       = JStr "E-Mail address  a@x.com is already exists, please pick a different one."
    /\ users w' = users Demo.world
    /\ In Demo.alice (users w').
Proof.
  apply (signup_duplicate_email Demo.collaborators Demo.signupAliceAgain
           Demo.world Demo.alice); try reflexivity.
  simpl. now left.
Defined.


Lemma signup_rejected_echoes_input_witness :
  exists e,
    signup Demo.collaborators Demo.signupRejected Demo.world
    = (Normal (Returned e), Demo.world)
    /\ statusCode e = 422
    /\ isError e = true /\ success e = false
    /\ message e = JStr "Please provide a valid email"
    /\ validationErrors e = JArr [Demo.emailError]
    /\ oldInput e
       = JObj [("firstName", JStr "Bob");
               ("lastName", JStr "Roe");
               ("email", JStr "not-an-email");
               ("password", JStr "Secret1!");
               ("confirmPassword", JStr "Secret1!");
               ("dateOfBirth", JStr "1991-02-03");
               ("gender", JStr "male")].
Proof.
  apply (signup_rejected_echoes_input Demo.collaborators Demo.signupRejected
           Demo.world Demo.emailError []).
  reflexivity.
Defined.

(** C9, as the spec has it, fails: this signup is rejected by the
    validator (the address is malformed), and the oldInput of the
    envelope does have the properties password and confirmPassword, with
    the very strings that were submitted. *)
Lemma signup_rejected_echoes_password :
  validationResult Demo.signupRejected <> []
  /\ jprop "password" (body Demo.signupRejected) = JStr "Secret1!"
  /\ jprop "confirmPassword" (body Demo.signupRejected) = JStr "Secret1!"
  /\ exists e,
       signup Demo.collaborators Demo.signupRejected Demo.world
       = (Normal (Returned e), Demo.world)
       /\ statusCode e = 422
       /\ In "password" (jkeys (oldInput e))
       /\ In "confirmPassword" (jkeys (oldInput e))
       /\ jget "password" (oldInput e) = JStr "Secret1!"
       /\ jget "confirmPassword" (oldInput e) = JStr "Secret1!".
Proof.
  split; [discriminate|]. split; [reflexivity|]. split; [reflexivity|].
  eexists. split; [reflexivity|]. simpl.
  repeat split; auto 10.
Qed.

(** * Further properties of the handlers *)

(** ** The validation gate *)

Section ValidationGate.
Variable C : Collaborators.

(** X1. In the four handlers that check [validationResult] (signup,
    login, requestPasswordReset, resetPassword), a request with
    validation errors is answered before anything else happens: status
    422, the [msg] of the first error as message, the whole list of
    errors attached, an empty payload, and the world (store, mailer,
    [res], random source) exactly as it was. *)
Theorem validation_gate
    (c : Call) (w : World) (first : JsValue) (others : list JsValue) :
  validates c = true ->
  validationResult (requestOf c) = first :: others ->
  exists e,
    handle C c w = (Normal (Returned e), w)
    /\ statusCode e = 422
    /\ success e = false /\ isError e = true
    /\ payload e = JObj []
    /\ message e = jget "msg" first
    /\ validationErrors e = JArr (first :: others).
Proof.
  intros Hgated Herrors.
  destruct c as [req|req|req|req|req|req]; simpl in *; try discriminate;
    [unfold signup | unfold login | unfold requestPasswordReset
     | unfold resetPassword];
    rewrite Herrors; simpl;
    (eexists; split; [reflexivity|]; simpl; repeat split).
Qed.

(** X2. A login that fails validation echoes, as oldInput, exactly the
    two fields it was sent: the e-mail address and the password as
    submitted. *)
Theorem login_rejected_echoes_credentials (req : Request) (w : World) :
  validationResult req <> [] ->
  exists e,
    login C req w = (Normal (Returned e), w)
    /\ statusCode e = 422
    /\ oldInput e = JObj [("email", jprop "email" (body req));
                          ("password", jprop "password" (body req))].
Proof.
  intro Herrors. unfold login. rewrite (rejected req Herrors).
  eexists. split; [reflexivity|]. split; reflexivity.
Qed.

(** X3. The two password-reset handlers, when validation fails, echo
    the e-mail address of the body and nothing else: the new password
    and its confirmation that a resetPassword body carries are not in
    oldInput. *)
Theorem reset_handlers_echo_email_only (req : Request) (w : World) :
  validationResult req <> [] ->
  exists e1 e2,
    requestPasswordReset C req w = (Normal (Returned e1), w)
    /\ resetPassword C req w = (Normal (Returned e2), w)
    /\ oldInput e1 = JObj [("email", jprop "email" (body req))]
    /\ oldInput e2 = JObj [("email", jprop "email" (body req))]
    /\ jkeys (oldInput e2) = ["email"]
    /\ e1 = e2.
Proof.
  intro Herrors. unfold requestPasswordReset, resetPassword.
  rewrite (rejected req Herrors).
  eexists. eexists. split; [reflexivity|]. split; [reflexivity|].
  repeat split.
Qed.

End ValidationGate.

(** ** Login: the cookies *)

Section LoginCookies.
Variable C : Collaborators.

(** X4. A successful login makes exactly three calls on [res], in this
    order: the cookies authToken, accessToken and refreshToken, each
    http-only, with max-ages of 365 days, 1 day and 7 days in
    milliseconds, and each secure exactly when NODE_ENV is the string
    'production'.  Their values are the three token strings of the
    payload.  Nothing is mailed. *)
Theorem login_sets_three_cookies
    (req : Request) (w : World) (u : UserDoc) (token access refresh : string) :
  validationResult req = [] ->
  User.byEmail (jprop "email" (body req)) w = Some u ->
  comparePassword C u (jprop "password" (body req)) = Normal true ->
  createJWT C u = Normal token ->
  signAccessToken C (_id u) = Normal access ->
  signRefreshToken C (_id u) = Normal refresh ->
  exists e w',
    login C req w = (Normal (Returned e), w')
    /\ resCalls w'
       = (resCalls w
          ++ loginCookies (jeqb (NODE_ENV w) (JStr "production"))
                          token access refresh)%list
    /\ jget "token" (jget "user" (payload e)) = JStr token
    /\ jget "accessToken" (jget "user" (payload e)) = JStr access
    /\ jget "refreshToken" (jget "user" (payload e)) = JStr refresh
    /\ 31536000000 = 365 * 24 * 60 * 60 * 1000
    /\ 86400000 = 24 * 60 * 60 * 1000
    /\ 604800000 = 7 * 24 * 60 * 60 * 1000
    /\ outbox w' = outbox w.
Proof.
  intros Hv Hsome Hcmp Hjwt Hacc Href.
  unfold login. rewrite (validated req Hv). run.
  rewrite Hsome, Hcmp. simpl. rewrite Hjwt, Hacc, Href.
  eexists. eexists. split; [reflexivity|]. simpl.
  split; [|repeat split].
  unfold loginCookies. now rewrite <- !app_assoc.
Qed.

(** X5. Login sets cookies only when it answers 200: whenever its reply
    is anything else (422, 401, or an error handed to [next] because the
    comparison or a signer threw), the world, [res] included, is exactly
    as before. *)
Theorem login_cookies_only_on_success
    (req : Request) (w w' : World) (reply : Reply) :
  login C req w = (Normal reply, w') ->
  (forall e, reply = Returned e -> statusCode e <> 200) ->
  w' = w.
Proof.
  unfold login.
  destruct (negb (isEmpty (validationResult req))).
  { now intros [= _ <-]. }
  run.
  destruct (User.byEmail _ w) as [u|]; [|now intros [= _ <-]].
  destruct (comparePassword C u _) as [[|]|]; simpl;
    try (now intros [= _ <-]).
  destruct (createJWT C u); simpl; [|now intros [= _ <-]].
  destruct (signAccessToken C (_id u)); simpl; [|now intros [= _ <-]].
  destruct (signRefreshToken C (_id u)); simpl; [|now intros [= _ <-]].
  intros [= <- _] Hnot. exfalso. now apply (Hnot _ eq_refl).
Qed.

End LoginCookies.

(** ** Logout: the refusals *)

Section LogoutRefusals.
Variable C : Collaborators.

(** X6. A logout whose body has no refreshToken, or has one that is
    null, the empty string, 0 or false, is answered with status 422
    before the token helper or the store is asked anything; the world is
    unchanged. *)
Theorem logout_missing_token (req : Request) (w : World) :
  In (jprop "refreshToken" (body req)) falsyValues ->
  logout C req w = (Normal (Returned missingRefreshToken), w)
  /\ statusCode missingRefreshToken = 422
  /\ isError missingRefreshToken = true.
Proof.
  intro Hfalsy. unfold logout.
  assert (Hnot : truthy (jprop "refreshToken" (body req)) = false).
  { destruct Hfalsy as [<-|[<-|[<-|[<-|[<-|[]]]]]]; reflexivity. }
  rewrite Hnot. repeat split.
Qed.

(** X7. When the refresh token does not verify (the helper rejects),
    logout hands that very error to [next]: no envelope, no cookie
    cleared, no lookup in the store. *)
Theorem logout_verification_failure
    (req : Request) (w : World) (e : JsError) :
  truthy (jprop "refreshToken" (body req)) = true ->
  verifyRefreshToken C (jprop "refreshToken" (body req)) = Throw e ->
  logout C req w = (Normal (Forwarded e), w).
Proof.
  intros Htok Hverify. unfold logout. rewrite Htok. run.
  now rewrite Hverify.
Qed.

(** X8. When the refresh token verifies to the id of a user that is not
    in the store (an account deleted since), logout answers with status
    400 and the message 'Unauthenticated', with an empty array as
    payload, and clears no cookie. *)
Theorem logout_unknown_user
    (req : Request) (w : World) (id : JsValue) (oid : ObjectId) :
  truthy (jprop "refreshToken" (body req)) = true ->
  verifyRefreshToken C (jprop "refreshToken" (body req)) = Normal id ->
  castObjectId C id = Some oid ->
  User.byId oid w = None ->
  logout C req w = (Normal (Returned unauthenticated), w)
  /\ statusCode unauthenticated = 400
  /\ message unauthenticated = JStr "Unauthenticated"
  /\ payload unauthenticated = JArr [].
Proof.
  intros Htok Hverify Hcast Hnone. unfold logout. rewrite Htok. run.
  rewrite Hverify, Hcast. run. rewrite Hnone. repeat split.
Qed.

(** X9. Logout never reports success and never revokes anything: every
    envelope it returns, the one with status 200 included, has success
    unset and isError set; it leaves the users, the reset tokens and the
    mailer alone; and on [res] it either does nothing or clears the
    cookies accessToken and refreshToken, never authToken. *)
Theorem logout_flags_and_footprint
    (req : Request) (w w' : World) (reply : Reply) :
  logout C req w = (Normal reply, w') ->
  (forall e, reply = Returned e -> success e = false /\ isError e = true)
  /\ users w' = users w /\ tokens w' = tokens w /\ outbox w' = outbox w
  /\ (resCalls w' = resCalls w
      \/ resCalls w' = (resCalls w ++ logoutCookies)%list)
  /\ ~ In (ClearCookie "authToken") logoutCookies.
Proof.
  assert (Hlegacy : ~ In (ClearCookie "authToken") logoutCookies).
  { intros [H|[H|[]]]; discriminate H. }
  intro Hrun.
  assert (Hcases :
    (reply = Returned missingRefreshToken \/ reply = Returned unauthenticated
     \/ (exists err, reply = Forwarded err)) /\ w' = w
    \/ (exists env, reply = Returned env /\ success env = false
                    /\ isError env = true)
       /\ w' = add_resCall (ClearCookie "refreshToken")
                 (add_resCall (ClearCookie "accessToken") w)).
  { revert Hrun. unfold logout.
    destruct (negb (truthy _)); [intros [= <- <-]; eauto 10|].
    run.
    destruct (verifyRefreshToken C _) as [id|]; simpl;
      [|intros [= <- <-]; eauto 10].
    destruct (castObjectId C id); run; [|intros [= <- <-]; eauto 10].
    destruct (User.byId _ w); [|intros [= <- <-]; eauto 10].
    unfold globalIdentifier. destruct (find _ (globalThis w)); simpl;
      intros [= <- <-]; eauto 10. }
  destruct Hcases as [[Hreply ->]|[(env & -> & Hs & Hi) ->]].
  - repeat split; auto;
      destruct Hreply as [->|[->|[err ->]]];
      match goal with
      | H : _ = Returned _ |- _ =>
          (discriminate H || (injection H as <-; reflexivity))
      end.
  - simpl. repeat split; auto;
      try match goal with
          | H : Returned _ = Returned _ |- _ => injection H as <-; assumption
          end.
    right. unfold logoutCookies. now rewrite <- app_assoc.
Qed.

End LogoutRefusals.

(** ** RequestPasswordReset: who is mailed what *)

Section ResetRequests.
Variable C : Collaborators.

(** X10. A reset request (past validation) for an e-mail address that
    no account has is answered with status 401 and a message that spells
    out the address as not associated with any account; no token is
    made, nothing is mailed, the world is unchanged. *)
Theorem requestPasswordReset_unknown_email (req : Request) (w : World) :
  validationResult req = [] ->
  User.byEmail (jprop "email" (body req)) w = None ->
  requestPasswordReset C req w
  = (Normal (Returned (unknownEmail (jprop "email" (body req)))), w)
  /\ statusCode (unknownEmail (jprop "email" (body req))) = 401
  /\ message (unknownEmail (jprop "email" (body req)))
     = JStr ("The email address " ++ toString (jprop "email" (body req))
             ++ " is not associated with any account. Double-check your email address and try again.").
Proof.
  intros Hv Hnone. unfold requestPasswordReset. rewrite (validated req Hv).
  run. rewrite Hnone. repeat split.
Qed.

(** X12. Whenever a reset request is answered with status 200, the
    token string in the payload is the token string of a token now
    stored for the account of that e-mail address, and exactly one mail
    was handed over: to the address of the request, in the account's
    first name, with the link
    CLIENT_URL/reset-password/token=<that string>&id=<the user id>.
    The token collection is as before or has that one token more. *)
Theorem requestPasswordReset_mails_the_returned_token
    (req : Request) (w w' : World) (e : Envelope) :
  requestPasswordReset C req w = (Normal (Returned e), w') ->
  statusCode e = 200 ->
  exists u t,
    User.byEmail (jprop "email" (body req)) w = Some u
    /\ In t (tokens w') /\ userId t = _id u
    /\ payload e = resetPasswordToken t
    /\ outbox w'
       = (outbox w
          ++ [ResetPasswordEmail (jprop "email" (body req)) (firstName u)
                (CLIENT_URL C ++ "/reset-password/token="
                 ++ toString (resetPasswordToken t)
                 ++ "&id=" ++ _id u)])%list
    /\ users w' = users w
    /\ (tokens w' = tokens w \/ tokens w' = (tokens w ++ [t])%list).
Proof.
  unfold requestPasswordReset.
  destruct (negb (isEmpty (validationResult req))).
  { intros [= <- _] H. discriminate H. }
  run.
  destruct (User.byEmail _ w) as [u|] eqn:Hu.
  2:{ intros [= <- _] H. discriminate H. }
  destruct (Token.lookup _ w) as [t|] eqn:Ht.
  - intros [= <- <-] _. exists u, t.
    unfold Token.lookup in Ht. apply find_some in Ht as [Hin Hm].
    unfold Token.matches in Hm. simpl in Hm. rewrite andb_true_r in Hm.
    apply String.eqb_eq in Hm. simpl. rewrite Hm. repeat split; auto.
  - unfold Token.new, Token.generatePasswordReset, Token.save, ObjectId_new.
    run. destruct (existsb _ (tokens w)); [discriminate|].
    intros [= <- <-] _. exists u. eexists. simpl.
    split; [reflexivity|]. split; [apply in_or_app; right; left; reflexivity|].
    repeat split. now right.
Qed.

(** X13. A reset request that is not answered with status 200 has
    mailed nothing and stored nothing: the mailer, the token collection,
    the users and [res] are as before. *)
Theorem requestPasswordReset_failure_no_effect
    (req : Request) (w w' : World) (reply : Reply) :
  requestPasswordReset C req w = (Normal reply, w') ->
  (forall e, reply = Returned e -> statusCode e <> 200) ->
  outbox w' = outbox w /\ tokens w' = tokens w
  /\ users w' = users w /\ resCalls w' = resCalls w.
Proof.
  unfold requestPasswordReset.
  destruct (negb (isEmpty (validationResult req))).
  { intros [= _ <-] _. repeat split. }
  run.
  destruct (User.byEmail _ w) as [u|]; [|intros [= _ <-] _; repeat split].
  destruct (Token.lookup _ w) as [t|].
  - intros [= <- _] Hnot. exfalso. now apply (Hnot _ eq_refl).
  - unfold Token.new, Token.generatePasswordReset, Token.save, ObjectId_new.
    run. destruct (existsb _ (tokens w)).
    + intros [= _ <-] _. repeat split.
    + intros [= <- _] Hnot. exfalso. now apply (Hnot _ eq_refl).
Qed.

End ResetRequests.

(** ** Saving a user: what it leaves alone *)

Section SaveFrame.
Variable C : Collaborators.

(** A save touches neither the mailer nor [res]. *)
Lemma save_frame (doc : UserDoc) (w : World) :
  outbox (snd (User.save C doc w)) = outbox w
  /\ resCalls (snd (User.save C doc w)) = resCalls w.
Proof.
  unfold User.save.
  destruct (validateUser C doc); [split; reflexivity|].
  destruct (isNew doc).
  - destruct (User.duplicates doc w); split; reflexivity.
  - destruct (User.byId (_id doc) w); [|split; reflexivity].
    destruct (jeqb _ _); split; reflexivity.
Qed.


(** A save of a new document, when it succeeds, appends it. *)
Lemma save_insert (doc saved : UserDoc) (w ws : World) :
  isNew doc = true ->
  User.save C doc w = (Normal saved, ws) ->
  users ws = (users w ++ [saved])%list.
Proof.
  intro Hnew. unfold User.save.
  destruct (validateUser C doc); [discriminate|].
  rewrite Hnew.
  destruct (User.duplicates doc w); [discriminate|].
  now intros [= <- <-].
Qed.

End SaveFrame.

(** ** ResetPassword: refusals and effects *)

Section ResetEffects.
Variable C : Collaborators.

(** X14. A reset for a user id that names no stored user and a reset
    for a stored user with a token string that none of that user's
    tokens has (both past validation) get the same envelope, status 400
    with 'Password reset token is invalid or has expired.', so the
    answer does not tell which half of the lookup failed; neither
    changes the world. *)
Theorem resetPassword_refusals_indistinguishable
    (reqA reqB : Request) (wA wB : World) (oidA oidB : ObjectId)
    (u : UserDoc) :
  validationResult reqA = [] ->
  validationResult reqB = [] ->
  castObjectId C (jprop "userId" (params reqA)) = Some oidA ->
  User.byId oidA wA = None ->
  castObjectId C (jprop "userId" (params reqB)) = Some oidB ->
  User.byId oidB wB = Some u ->
  Token.lookup (Token.mkFilter (_id u) (Some (jprop "token" (params reqB)))) wB
  = None ->
  exists e,
    resetPassword C reqA wA = (Normal (Returned e), wA)
    /\ resetPassword C reqB wB = (Normal (Returned e), wB)
    /\ statusCode e = 400
    /\ message e = JStr "Password reset token is invalid or has expired.".
Proof.
  intros HvA HvB HcastA HnoneA HcastB HsomeB Htok.
  exists resetRefused. split; [|split; [|split; reflexivity]].
  - unfold resetPassword. rewrite (validated reqA HvA). run.
    rewrite HcastA. run. now rewrite HnoneA.
  - exact (resetPassword_no_token C reqB wB oidB u HvB HcastB HsomeB Htok).
Qed.

(** X15. A reset that is not answered with the 200 envelope has mailed
    nothing and removed no token, and it has left the users (and so every
    stored password) as they were in every case but one: the save had
    returned and the store rejected the delete of the token.  In that
    case, whenever it happens, the error of the delete goes to [next]
    with the saved user, new password included, in the store, the reset
    token still stored and no confirmation mailed. *)
Theorem resetPassword_failure_effects (req : Request) (w : World) :
  (forall reply w',
      resetPassword C req w = (Normal reply, w') ->
      (forall e, reply = Returned e -> statusCode e <> 200) ->
      tokens w' = tokens w /\ outbox w' = outbox w
      /\ (users w' = users w
          \/ exists oid u t saved err,
               castObjectId C (jprop "userId" (params req)) = Some oid
               /\ User.byId oid w = Some u
               /\ Token.lookup
                    (Token.mkFilter (_id u)
                                    (Some (jprop "token" (params req)))) w
                  = Some t
               /\ User.save C (resetDocument (body req) u) w
                  = (Normal saved, w')
               /\ deleteOne C t = Some err
               /\ reply = Forwarded err))
  /\ (forall oid u t saved ws err,
         validationResult req = [] ->
         castObjectId C (jprop "userId" (params req)) = Some oid ->
         User.byId oid w = Some u ->
         Token.lookup
           (Token.mkFilter (_id u) (Some (jprop "token" (params req)))) w
         = Some t ->
         User.save C (resetDocument (body req) u) w = (Normal saved, ws) ->
         deleteOne C t = Some err ->
         resetPassword C req w = (Normal (Forwarded err), ws)
         /\ User.byId oid ws = Some saved
         /\ In t (tokens ws)
         /\ outbox ws = outbox w).
Proof.
  split.
  - intros reply w' Hrun Hnot.
    destruct (validationResult req) as [|first others] eqn:Hv.
    2:{ unfold resetPassword in Hrun. rewrite Hv in Hrun. simpl in Hrun.
        unfold ret in Hrun. injection Hrun as _ <-. auto. }
    destruct (castObjectId C (jprop "userId" (params req))) as [oid|]
      eqn:Hcast.
    2:{ unfold resetPassword in Hrun. rewrite Hv in Hrun. simpl in Hrun.
        revert Hrun. run. rewrite Hcast. run. intros [= _ <-]. auto. }
    destruct (User.byId oid w) as [u|] eqn:Hu.
    2:{ unfold resetPassword in Hrun. rewrite Hv in Hrun. simpl in Hrun.
        revert Hrun. run. rewrite Hcast. run. rewrite Hu.
        intros [= _ <-]. auto. }
    destruct (Token.lookup
                (Token.mkFilter (_id u) (Some (jprop "token" (params req)))) w)
      as [t|] eqn:Ht.
    2:{ rewrite (resetPassword_no_token C req w oid u Hv Hcast Hu Ht) in Hrun.
        injection Hrun as _ <-. auto. }
    rewrite (resetPassword_found C req w oid u t Hv Hcast Hu Ht) in Hrun.
    pose proof (save_tokens C (resetDocument (body req) u) w) as Hts.
    pose proof (save_frame C (resetDocument (body req) u) w) as [Hout _].
    destruct (User.save C (resetDocument (body req) u) w) as [[saved|err] ws]
      eqn:Hsave; simpl in Hts, Hout.
    + destruct (deleteOne C t) as [err|] eqn:Hdel.
      * injection Hrun as <- <-.
        split; [exact Hts|]. split; [exact Hout|].
        right. exists oid, u, t, saved, err. repeat split; auto.
      * injection Hrun as <- _. exfalso. now apply (Hnot _ eq_refl).
    + injection Hrun as _ <-.
      split; [exact Hts|]. split; [exact Hout|].
      left. exact (save_throw_users C _ w ws err Hsave).
  - intros oid u t saved ws err Hv Hcast Hu Ht Hsave Hdel.
    rewrite (resetPassword_found C req w oid u t Hv Hcast Hu Ht).
    rewrite Hsave, Hdel. split; [reflexivity|].
    destruct (byId_id oid w u Hu) as [Hid Hin].
    destruct (save_update C (resetDocument (body req) u) u saved w ws
                          Hin eq_refl Hsave) as (_ & Hfound & _).
    simpl in Hfound. rewrite Hid in Hfound.
    pose proof (save_tokens C (resetDocument (body req) u) w) as Hts.
    pose proof (save_frame C (resetDocument (body req) u) w) as [Hout _].
    rewrite Hsave in Hts, Hout. simpl in Hts, Hout.
    split; [exact Hfound|]. split; [|exact Hout].
    rewrite Hts. unfold Token.lookup in Ht.
    now apply find_some in Ht as [? _].
Qed.


End ResetEffects.

(** ** Signup: failures that are not a duplicate *)

Section SignupFailures.
Variable C : Collaborators.

(** X17. When the save of the new user throws anything but the
    duplicate-key error (code 11000), signup does not answer 409 or any
    envelope: that very error is handed to [next], and the user
    collection is as before. *)
Theorem signup_persistence_failure_forwarded
    (req : Request) (w w1 : World) (e : JsError) :
  validationResult req = [] ->
  User.save C (signupDocument C (newObjectId C (entropy w)) (body req))
            (tick_entropy w)
  = (Throw e, w1) ->
  errCode e <> JNum 11000 ->
  signup C req w = (Normal (Forwarded e), w1)
  /\ users w1 = users w.
Proof.
  intros Hv Hsave Hcode.
  rewrite (signup_validated C req w Hv). cbv zeta. rewrite Hsave.
  unfold signupFailed. rewrite (jeqb_neq _ _ Hcode).
  split; [reflexivity|].
  exact (save_throw_users C _ _ _ _ Hsave).
Qed.

(** X18. The three tokens are signed after the save, inside the same
    try block: when the signer throws (at the legacy token, the access
    token or the refresh token) with an error whose code is not 11000,
    signup hands the error to [next] and returns no envelope, yet the
    new user stays in the store. *)
Theorem signup_signer_failure_after_persist
    (req : Request) (w w1 : World) (user : UserDoc) (e : JsError) :
  validationResult req = [] ->
  User.save C (signupDocument C (newObjectId C (entropy w)) (body req))
            (tick_entropy w)
  = (Normal user, w1) ->
  (createJWT C user = Throw e
   \/ (exists token, createJWT C user = Normal token
                     /\ signAccessToken C (_id user) = Throw e)
   \/ (exists token accessToken,
         createJWT C user = Normal token
         /\ signAccessToken C (_id user) = Normal accessToken
         /\ signRefreshToken C (_id user) = Throw e)) ->
  errCode e <> JNum 11000 ->
  signup C req w = (Normal (Forwarded e), w1)
  /\ users w1 = (users w ++ [user])%list
  /\ In user (users w1).
Proof.
  intros Hv Hsave Hsigner Hcode.
  rewrite (signup_validated C req w Hv). cbv zeta. rewrite Hsave.
  assert (Hins : users w1 = (users w ++ [user])%list).
  { exact (save_insert C
             (signupDocument C (newObjectId C (entropy w)) (body req))
             user (tick_entropy w) w1 eq_refl Hsave). }
  assert (Hfail : signupFailed
            (signupDocument C (newObjectId C (entropy w)) (body req)) e w1
          = (Normal (Forwarded e), w1)).
  { unfold signupFailed. now rewrite (jeqb_neq _ _ Hcode). }
  split; [|split; [exact Hins|]].
  - destruct Hsigner as [->|[(token & -> & ->)|(token & access & -> & -> & ->)]];
      exact Hfail.
  - rewrite Hins. apply in_or_app. right. now left.
Qed.

End SignupFailures.

(** ** All handlers at once *)

Section AllHandlers.
Variable C : Collaborators.

(** X19. No handler completes abruptly: whatever the request, the world
    and the collaborators do, even when they throw, each of the six
    handlers hands back a reply, an envelope or the result of
    [next(error)].  Every call that can throw sits inside the handler's
    try block. *)
Theorem handlers_never_throw (c : Call) (w : World) :
  exists reply, fst (handle C c w) = Normal reply.
Proof.
  destruct c as [req|req|req|req|req|req]; simpl.
  - unfold signup.
    destruct (negb (isEmpty (validationResult req))); [eexists; reflexivity|].
    unfold ObjectId_new. run.
    destruct (User.save C _ _) as [[user|e] ws]; simpl.
    + destruct (createJWT C user); simpl;
        [|destruct (jeqb _ _); eexists; reflexivity].
      destruct (signAccessToken C (_id user)); simpl;
        [|destruct (jeqb _ _); eexists; reflexivity].
      destruct (signRefreshToken C (_id user)); simpl;
        [|destruct (jeqb _ _)]; eexists; reflexivity.
    + destruct (jeqb _ _); eexists; reflexivity.
  - unfold login.
    destruct (negb (isEmpty (validationResult req))); [eexists; reflexivity|].
    run.
    destruct (User.byEmail _ w) as [u|]; [|eexists; reflexivity].
    destruct (comparePassword C u _) as [[|]|]; simpl;
      try (eexists; reflexivity).
    destruct (createJWT C u); simpl; [|eexists; reflexivity].
    destruct (signAccessToken C (_id u)); simpl; [|eexists; reflexivity].
    destruct (signRefreshToken C (_id u)); eexists; reflexivity.
  - eexists. reflexivity.
  - unfold requestPasswordReset.
    destruct (negb (isEmpty (validationResult req))); [eexists; reflexivity|].
    run.
    destruct (User.byEmail _ w) as [u|]; [|eexists; reflexivity].
    destruct (Token.lookup _ w) as [t|]; [eexists; reflexivity|].
    unfold Token.new, Token.generatePasswordReset, Token.save, ObjectId_new.
    run. destruct (existsb _ (tokens w)); eexists; reflexivity.
  - unfold resetPassword.
    destruct (negb (isEmpty (validationResult req))); [eexists; reflexivity|].
    run.
    destruct (castObjectId C _); run; [|eexists; reflexivity].
    destruct (User.byId _ w) as [u|]; [|eexists; reflexivity].
    destruct (Token.lookup _ w) as [t|]; [|eexists; reflexivity].
    destruct (User.save C _ w) as [[user|e] ws]; simpl;
      [destruct (deleteOne C t)|]; eexists; reflexivity.
  - unfold logout.
    destruct (negb (truthy _)); [eexists; reflexivity|].
    run.
    destruct (verifyRefreshToken C _) as [id|]; simpl; [|eexists; reflexivity].
    destruct (castObjectId C id); run; [|eexists; reflexivity].
    destruct (User.byId _ w); [|eexists; reflexivity].
    unfold globalIdentifier.
    destruct (find _ (globalThis w)); eexists; reflexivity.
Qed.

(** X20. Every envelope any handler returns is one of two shapes: its
    isError flag is the negation of its success flag; its status is one
    of 200, 201, 400, 401, 409, 422; an envelope with success set has
    status 200 or 201; and only a 422 envelope carries oldInput or
    validationErrors. *)
Theorem envelopes_are_consistent
    (c : Call) (w w' : World) (e : Envelope) :
  handle C c w = (Normal (Returned e), w') ->
  isError e = negb (success e)
  /\ In (statusCode e) statusCodes
  /\ (success e = true -> statusCode e = 200 \/ statusCode e = 201)
  /\ (statusCode e <> 422 ->
      oldInput e = JUndefined /\ validationErrors e = JUndefined).
Proof.
  assert (Hshape : forall d s m st,
    In st statusCodes -> (s = true -> st = 200 \/ st = 201) ->
    let r := Response d s (negb s) m st in
    isError r = negb (success r) /\ In (statusCode r) statusCodes
    /\ (success r = true -> statusCode r = 200 \/ statusCode r = 201)
    /\ (statusCode r <> 422 ->
        oldInput r = JUndefined /\ validationErrors r = JUndefined)).
  { intros d s m st Hin Hs. simpl. repeat split; auto. }
  assert (Hgate : forall m o v,
    let r := set_validationErrors v
               (set_oldInput o (Response (JObj []) false true m 422)) in
    isError r = negb (success r) /\ In (statusCode r) statusCodes
    /\ (success r = true -> statusCode r = 200 \/ statusCode r = 201)
    /\ (statusCode r <> 422 ->
        oldInput r = JUndefined /\ validationErrors r = JUndefined)).
  { intros m o v. simpl. repeat split; try discriminate; tauto. }
  assert (H200 : In 200 statusCodes) by (simpl; tauto).
  assert (H201 : In 201 statusCodes) by (simpl; tauto).
  assert (H400 : In 400 statusCodes) by (simpl; tauto).
  assert (H401 : In 401 statusCodes) by (simpl; tauto).
  assert (H409 : In 409 statusCodes) by (simpl; tauto).
  assert (H422 : In 422 statusCodes) by (simpl; tauto).
  destruct c as [req|req|req|req|req|req]; simpl.
  - unfold signup.
    destruct (negb (isEmpty (validationResult req))).
    { intros [= <- _]. apply Hgate. }
    unfold ObjectId_new. run.
    destruct (User.save C _ _) as [[user|err] ws]; simpl.
    + destruct (createJWT C user); simpl.
      2:{ destruct (jeqb _ _); intros [= <- _].
          apply (Hshape _ false); auto; discriminate. }
      destruct (signAccessToken C (_id user)); simpl.
      2:{ destruct (jeqb _ _); intros [= <- _].
          apply (Hshape _ false); auto; discriminate. }
      destruct (signRefreshToken C (_id user)); simpl.
      2:{ destruct (jeqb _ _); intros [= <- _].
          apply (Hshape _ false); auto; discriminate. }
      intros [= <- _]. apply (Hshape _ true); auto.
    + destruct (jeqb _ _); intros [= <- _].
      apply (Hshape _ false); auto; discriminate.
  - unfold login.
    destruct (negb (isEmpty (validationResult req))).
    { intros [= <- _]. apply Hgate. }
    run.
    destruct (User.byEmail _ w) as [u|].
    2:{ intros [= <- _]. apply (Hshape _ false); auto; discriminate. }
    destruct (comparePassword C u _) as [[|]|]; simpl; try discriminate.
    2:{ intros [= <- _]. apply (Hshape _ false); auto; discriminate. }
    destruct (createJWT C u); simpl; [|discriminate].
    destruct (signAccessToken C (_id u)); simpl; [|discriminate].
    destruct (signRefreshToken C (_id u)); simpl; [|discriminate].
    intros [= <- _]. apply (Hshape _ true); auto.
  - unfold getMe, ret. intros [= <- _]. apply (Hshape _ true); auto.
  - unfold requestPasswordReset.
    destruct (negb (isEmpty (validationResult req))).
    { intros [= <- _]. apply Hgate. }
    run.
    destruct (User.byEmail _ w) as [u|].
    2:{ intros [= <- _]. apply (Hshape _ false); auto; discriminate. }
    destruct (Token.lookup _ w) as [t|].
    { intros [= <- _]. apply (Hshape _ true); auto. }
    unfold Token.new, Token.generatePasswordReset, Token.save, ObjectId_new.
    run. destruct (existsb _ (tokens w)); [discriminate|].
    intros [= <- _]. apply (Hshape _ true); auto.
  - unfold resetPassword.
    destruct (negb (isEmpty (validationResult req))).
    { intros [= <- _]. apply Hgate. }
    run.
    destruct (castObjectId C _); run; [|discriminate].
    destruct (User.byId _ w) as [u|].
    2:{ intros [= <- _]. apply (Hshape _ false); auto; discriminate. }
    destruct (Token.lookup _ w) as [t|].
    2:{ intros [= <- _]. apply (Hshape _ false); auto; discriminate. }
    destruct (User.save C _ w) as [[user|err] ws]; [|discriminate].
    simpl. destruct (deleteOne C t); [discriminate|].
    intros [= <- _]. apply (Hshape _ true); auto.
  - unfold logout.
    destruct (negb (truthy _)).
    { intros [= <- _]. apply (Hshape _ false); auto; discriminate. }
    run.
    destruct (verifyRefreshToken C _) as [id|]; simpl; [|discriminate].
    destruct (castObjectId C id); run; [|discriminate].
    destruct (User.byId _ w).
    2:{ intros [= <- _]. apply (Hshape _ false); auto; discriminate. }
    unfold globalIdentifier.
    destruct (find _ (globalThis w)); simpl; [|discriminate].
    intros [= <- _]. apply (Hshape _ false); auto; discriminate.
Qed.

End AllHandlers.

(** ** What each handler leaves alone *)

Section Footprints.
Variable C : Collaborators.

(** X21. The footprint of the service, for every request and world and
    whatever the reply: only signup and resetPassword change the user
    collection; only requestPasswordReset and resetPassword change the
    token collection or hand a mail to the mailer; only login and logout
    call [res].  In particular login, getMe and logout never write to the
    store. *)
Theorem handler_footprints (c : Call) (w : World) :
  (writesUsers c = false -> users (snd (handle C c w)) = users w)
  /\ (writesTokens c = false -> tokens (snd (handle C c w)) = tokens w)
  /\ (sendsMail c = false -> outbox (snd (handle C c w)) = outbox w)
  /\ (callsRes c = false -> resCalls (snd (handle C c w)) = resCalls w).
Proof.
  destruct c as [req|req|req|req|req|req]; simpl;
    repeat split; try discriminate; intros _.
  - apply signup_tokens.
  - unfold signup.
    destruct (negb (isEmpty (validationResult req))); [reflexivity|].
    unfold ObjectId_new. run.
    match goal with
    | |- context [User.save C ?d ?w0] =>
        pose proof (save_frame C d w0) as [Hout _];
        destruct (User.save C d w0) as [[user|e] ws]
    end; simpl in *.
    + destruct (createJWT C user); simpl;
        [|destruct (jeqb _ _); exact Hout].
      destruct (signAccessToken C (_id user)); simpl;
        [|destruct (jeqb _ _); exact Hout].
      destruct (signRefreshToken C (_id user)); simpl;
        [exact Hout | destruct (jeqb _ _); exact Hout].
    + destruct (jeqb _ _); exact Hout.
  - unfold signup.
    destruct (negb (isEmpty (validationResult req))); [reflexivity|].
    unfold ObjectId_new. run.
    match goal with
    | |- context [User.save C ?d ?w0] =>
        pose proof (save_frame C d w0) as [_ Hres];
        destruct (User.save C d w0) as [[user|e] ws]
    end; simpl in *.
    + destruct (createJWT C user); simpl;
        [|destruct (jeqb _ _); exact Hres].
      destruct (signAccessToken C (_id user)); simpl;
        [|destruct (jeqb _ _); exact Hres].
      destruct (signRefreshToken C (_id user)); simpl;
        [exact Hres | destruct (jeqb _ _); exact Hres].
    + destruct (jeqb _ _); exact Hres.
  - unfold login.
    destruct (negb (isEmpty (validationResult req))); [reflexivity|].
    run.
    destruct (User.byEmail _ w) as [u|]; [|reflexivity].
    destruct (comparePassword C u _) as [[|]|]; simpl; try reflexivity.
    destruct (createJWT C u); simpl; [|reflexivity].
    destruct (signAccessToken C (_id u)); simpl; [|reflexivity].
    destruct (signRefreshToken C (_id u)); reflexivity.
  - apply login_tokens.
  - unfold login.
    destruct (negb (isEmpty (validationResult req))); [reflexivity|].
    run.
    destruct (User.byEmail _ w) as [u|]; [|reflexivity].
    destruct (comparePassword C u _) as [[|]|]; simpl; try reflexivity.
    destruct (createJWT C u); simpl; [|reflexivity].
    destruct (signAccessToken C (_id u)); simpl; [|reflexivity].
    destruct (signRefreshToken C (_id u)); reflexivity.
  - unfold requestPasswordReset.
    destruct (negb (isEmpty (validationResult req))); [reflexivity|].
    run.
    destruct (User.byEmail _ w) as [u|]; [|reflexivity].
    destruct (Token.lookup _ w) as [t|]; [reflexivity|].
    unfold Token.new, Token.generatePasswordReset, Token.save, ObjectId_new.
    run. destruct (existsb _ (tokens w)); reflexivity.
  - unfold requestPasswordReset.
    destruct (negb (isEmpty (validationResult req))); [reflexivity|].
    run.
    destruct (User.byEmail _ w) as [u|]; [|reflexivity].
    destruct (Token.lookup _ w) as [t|]; [reflexivity|].
    unfold Token.new, Token.generatePasswordReset, Token.save, ObjectId_new.
    run. destruct (existsb _ (tokens w)); reflexivity.
  - unfold resetPassword.
    destruct (negb (isEmpty (validationResult req))); [reflexivity|].
    run.
    destruct (castObjectId C _); run; [|reflexivity].
    destruct (User.byId _ w) as [u|]; [|reflexivity].
    destruct (Token.lookup _ w) as [t|]; [|reflexivity].
    match goal with
    | |- context [User.save C ?d ?w0] =>
        pose proof (save_frame C d w0) as [_ Hres];
        destruct (User.save C d w0) as [[user|e] ws]
    end; simpl in *; [destruct (deleteOne C t)|]; exact Hres.
  - unfold logout.
    destruct (negb (truthy _)); [reflexivity|].
    run.
    destruct (verifyRefreshToken C _) as [id|]; simpl; [|reflexivity].
    destruct (castObjectId C id); run; [|reflexivity].
    destruct (User.byId _ w); [|reflexivity].
    unfold globalIdentifier. destruct (find _ (globalThis w)); reflexivity.
  - apply logout_tokens.
  - unfold logout.
    destruct (negb (truthy _)); [reflexivity|].
    run.
    destruct (verifyRefreshToken C _) as [id|]; simpl; [|reflexivity].
    destruct (castObjectId C id); run; [|reflexivity].
    destruct (User.byId _ w); [|reflexivity].
    unfold globalIdentifier. destruct (find _ (globalThis w)); reflexivity.
Qed.

End Footprints.

(** ** Instances of the further properties at the sample data *)

Lemma validation_gate_witness :
  exists e,
    handle Demo.collaborators (Login Samples.loginRejected) Demo.world
    = (Normal (Returned e), Demo.world)
    /\ statusCode e = 422
    /\ success e = false /\ isError e = true
    /\ payload e = JObj []
    /\ message e = jget "msg" Demo.emailError
    /\ validationErrors e = JArr [Demo.emailError; Samples.passwordError].
Proof.
  apply (validation_gate Demo.collaborators (Login Samples.loginRejected)
           Demo.world Demo.emailError [Samples.passwordError]);
    reflexivity.
Defined.

Lemma login_rejected_echoes_credentials_witness :
  exists e,
    login Demo.collaborators Samples.loginRejected Demo.world
    = (Normal (Returned e), Demo.world)
    /\ statusCode e = 422
    /\ oldInput e = JObj [("email", JStr "not-an-email");
                          ("password", JStr "pw")].
Proof.
  apply (login_rejected_echoes_credentials Demo.collaborators
           Samples.loginRejected Demo.world).
  discriminate.
Defined.

Lemma reset_handlers_echo_email_only_witness :
  exists e1 e2,
    requestPasswordReset Demo.collaborators Samples.resetRejected Demo.world
    = (Normal (Returned e1), Demo.world)
    /\ resetPassword Demo.collaborators Samples.resetRejected Demo.world
       = (Normal (Returned e2), Demo.world)
    /\ oldInput e1 = JObj [("email", JStr "a@x.com")]
    /\ oldInput e2 = JObj [("email", JStr "a@x.com")]
    /\ jkeys (oldInput e2) = ["email"]
    /\ e1 = e2.
Proof.
  apply (reset_handlers_echo_email_only Demo.collaborators
           Samples.resetRejected Demo.world).
  discriminate.
Defined.

Lemma login_sets_three_cookies_witness :
  exists e w',
    login Demo.collaborators Demo.loginAlice Samples.production
    = (Normal (Returned e), w')
    /\ resCalls w'
       = [SetCookie "authToken" "jwt.a1" true 31536000000 true;
          SetCookie "accessToken" "access.a1" true 86400000 true;
          SetCookie "refreshToken" "refresh.a1" true 604800000 true]
    /\ jget "token" (jget "user" (payload e)) = JStr "jwt.a1"
    /\ jget "accessToken" (jget "user" (payload e)) = JStr "access.a1"
    /\ jget "refreshToken" (jget "user" (payload e)) = JStr "refresh.a1"
    /\ 31536000000 = 365 * 24 * 60 * 60 * 1000
    /\ 86400000 = 24 * 60 * 60 * 1000
    /\ 604800000 = 7 * 24 * 60 * 60 * 1000
    /\ outbox w' = [].
Proof.
  apply (login_sets_three_cookies Demo.collaborators Demo.loginAlice
           Samples.production Demo.alice "jwt.a1" "access.a1" "refresh.a1");
    reflexivity.
Defined.

Lemma login_cookies_only_on_success_witness :
  snd (login Demo.collaborators Demo.loginWrongPassword Demo.world)
  = Demo.world.
Proof.
  apply (login_cookies_only_on_success Demo.collaborators
           Demo.loginWrongPassword Demo.world
           (snd (login Demo.collaborators Demo.loginWrongPassword Demo.world))
           (Returned (Response (JObj []) false true authFailed 401))).
  - reflexivity.
  - intros e [= <-]. discriminate.
Defined.

Lemma logout_missing_token_witness :
  logout Demo.collaborators Samples.logoutNoToken Demo.world
  = (Normal (Returned missingRefreshToken), Demo.world)
  /\ statusCode missingRefreshToken = 422
  /\ isError missingRefreshToken = true.
Proof.
  apply (logout_missing_token Demo.collaborators Samples.logoutNoToken
           Demo.world).
  simpl. tauto.
Defined.

Lemma logout_verification_failure_witness :
  logout Demo.collaborators Samples.logoutForged Demo.world
  = (Normal (Forwarded (mkError "JsonWebTokenError" "invalid token"
                                JUndefined)),
     Demo.world).
Proof.
  apply (logout_verification_failure Demo.collaborators Samples.logoutForged
           Demo.world); reflexivity.
Defined.

Lemma logout_unknown_user_witness :
  logout Demo.collaborators Samples.logoutDeleted Demo.world
  = (Normal (Returned unauthenticated), Demo.world)
  /\ statusCode unauthenticated = 400
  /\ message unauthenticated = JStr "Unauthenticated"
  /\ payload unauthenticated = JArr [].
Proof.
  apply (logout_unknown_user Demo.collaborators Samples.logoutDeleted
           Demo.world (JStr "gone") "gone"); reflexivity.
Defined.

Lemma logout_flags_and_footprint_witness :
  users (snd (logout Demo.collaborators Samples.logoutDeleted Demo.world))
  = [Demo.alice]
  /\ tokens (snd (logout Demo.collaborators Samples.logoutDeleted Demo.world))
     = [Demo.aliceToken].
Proof.
  destruct (logout_flags_and_footprint Demo.collaborators
              Samples.logoutDeleted Demo.world
              (snd (logout Demo.collaborators Samples.logoutDeleted
                           Demo.world))
              (Returned unauthenticated) eq_refl)
    as (_ & Hus & Hts & _).
  split; [exact Hus | exact Hts].
Defined.

Lemma requestPasswordReset_unknown_email_witness :
  requestPasswordReset Demo.collaborators Samples.forgotNobody Demo.world
  = (Normal (Returned (unknownEmail (JStr "nobody@x.com"))), Demo.world)
  /\ statusCode (unknownEmail (JStr "nobody@x.com")) = 401
  /\ message (unknownEmail (JStr "nobody@x.com"))
     = JStr "The email address nobody@x.com is not associated with any account. Double-check your email address and try again.".
Proof.
  apply (requestPasswordReset_unknown_email Demo.collaborators
           Samples.forgotNobody Demo.world); reflexivity.
Defined.


Lemma requestPasswordReset_mails_the_returned_token_witness :
  exists u t,
    User.byEmail (JStr "a@x.com") Demo.world = Some u
    /\ In t (tokens (snd (requestPasswordReset Demo.collaborators
                            Demo.forgotAlice Demo.world)))
    /\ userId t = _id u
    /\ JStr "r4nd0m7" = resetPasswordToken t
    /\ outbox (snd (requestPasswordReset Demo.collaborators
                      Demo.forgotAlice Demo.world))
       = ([] ++ [ResetPasswordEmail (JStr "a@x.com") (firstName u)
                   ("https://client.example" ++ "/reset-password/token="
                    ++ toString (resetPasswordToken t)
                    ++ "&id=" ++ _id u)])%list
    /\ users (snd (requestPasswordReset Demo.collaborators
                     Demo.forgotAlice Demo.world))
       = users Demo.world
    /\ (tokens (snd (requestPasswordReset Demo.collaborators
                       Demo.forgotAlice Demo.world))
        = tokens Demo.world
        \/ tokens (snd (requestPasswordReset Demo.collaborators
                          Demo.forgotAlice Demo.world))
           = (tokens Demo.world ++ [t])%list).
Proof.
  apply (requestPasswordReset_mails_the_returned_token Demo.collaborators
           Demo.forgotAlice Demo.world
           (snd (requestPasswordReset Demo.collaborators Demo.forgotAlice
                                      Demo.world))
           (resetSent (JStr "a@x.com") Demo.aliceToken));
    reflexivity.
Defined.

Lemma requestPasswordReset_failure_no_effect_witness :
  outbox (snd (requestPasswordReset Demo.collaborators Samples.forgotNobody
                                    Demo.world)) = []
  /\ tokens (snd (requestPasswordReset Demo.collaborators
                    Samples.forgotNobody Demo.world)) = [Demo.aliceToken]
  /\ users (snd (requestPasswordReset Demo.collaborators
                   Samples.forgotNobody Demo.world)) = [Demo.alice]
  /\ resCalls (snd (requestPasswordReset Demo.collaborators
                      Samples.forgotNobody Demo.world)) = [].
Proof.
  apply (requestPasswordReset_failure_no_effect Demo.collaborators
           Samples.forgotNobody Demo.world
           (snd (requestPasswordReset Demo.collaborators Samples.forgotNobody
                                      Demo.world))
           (Returned (unknownEmail (JStr "nobody@x.com")))).
  - reflexivity.
  - intros e [= <-]. discriminate.
Defined.

Lemma resetPassword_refusals_indistinguishable_witness :
  exists e,
    resetPassword Demo.collaborators Samples.resetNobody Demo.world
    = (Normal (Returned e), Demo.world)
    /\ resetPassword Demo.collaborators Demo.resetWrongToken Demo.world
       = (Normal (Returned e), Demo.world)
    /\ statusCode e = 400
    /\ message e = JStr "Password reset token is invalid or has expired.".
Proof.
  apply (resetPassword_refusals_indistinguishable Demo.collaborators
           Samples.resetNobody Demo.resetWrongToken Demo.world Demo.world
           "zz" "a1" Demo.alice); reflexivity.
Defined.

Lemma resetPassword_failure_effects_witness :
  (tokens (snd (resetPassword Demo.collaborators Demo.resetShortPassword
                              Demo.world)) = [Demo.aliceToken]
   /\ outbox (snd (resetPassword Demo.collaborators Demo.resetShortPassword
                                 Demo.world)) = [])
  /\ (resetPassword Samples.brokenDelete Demo.resetAlice Demo.world
      = (Normal (Forwarded Samples.storeDown),
         snd (User.save Samples.brokenDelete
                (resetDocument (body Demo.resetAlice) Demo.alice) Demo.world))
      /\ User.byId "a1"
           (snd (User.save Samples.brokenDelete
                   (resetDocument (body Demo.resetAlice) Demo.alice)
                   Demo.world))
         = Some (stored 1000 (Demo.hash 10 (JStr "NewSecret2!"))
                   (resetDocument (body Demo.resetAlice) Demo.alice))
      /\ In Demo.aliceToken
            (tokens (snd (User.save Samples.brokenDelete
                            (resetDocument (body Demo.resetAlice) Demo.alice)
                            Demo.world)))
      /\ outbox (snd (User.save Samples.brokenDelete
                        (resetDocument (body Demo.resetAlice) Demo.alice)
                        Demo.world)) = []).
Proof.
  split.
  - destruct (resetPassword_failure_effects Demo.collaborators
                Demo.resetShortPassword Demo.world) as [Hquiet _].
    destruct (Hquiet
                (Forwarded (mkError "ValidationError" "password is too short"
                                    JUndefined))
                (snd (resetPassword Demo.collaborators
                        Demo.resetShortPassword Demo.world))
                eq_refl) as (Hts & Hout & _).
    + intros e H. discriminate H.
    + split; [exact Hts | exact Hout].
  - destruct (resetPassword_failure_effects Samples.brokenDelete
                Demo.resetAlice Demo.world) as [_ Hrejected].
    exact (Hrejected "a1" Demo.alice Demo.aliceToken
             (stored 1000 (Demo.hash 10 (JStr "NewSecret2!"))
                     (resetDocument (body Demo.resetAlice) Demo.alice))
             (snd (User.save Samples.brokenDelete
                     (resetDocument (body Demo.resetAlice) Demo.alice)
                     Demo.world))
             Samples.storeDown
             eq_refl eq_refl eq_refl eq_refl eq_refl eq_refl).
Defined.


Lemma signup_persistence_failure_forwarded_witness :
  signup Demo.collaborators Samples.signupShortPassword Demo.world
  = (Normal (Forwarded (mkError "ValidationError" "password is too short"
                                JUndefined)),
     tick_entropy Demo.world)
  /\ users (tick_entropy Demo.world) = users Demo.world.
Proof.
  apply (signup_persistence_failure_forwarded Demo.collaborators
           Samples.signupShortPassword Demo.world (tick_entropy Demo.world)).
  - reflexivity.
  - reflexivity.
  - discriminate.
Defined.

Lemma signup_signer_failure_after_persist_witness :
  exists user w1,
    signup Samples.brokenSigner (Demo.request Demo.signupBody []) Demo.world
    = (Normal (Forwarded Samples.signerDown), w1)
    /\ users w1 = [Demo.alice; user]
    /\ email user = JStr "b@x.com".
Proof.
  exists (fst (match User.save Samples.brokenSigner
                       (signupDocument Samples.brokenSigner "oid10"
                                       Demo.signupBody)
                       (tick_entropy Demo.world)
               with
               | (Normal u, w1) => (u, w1)
               | (Throw _, w1) => (Demo.alice, w1)
               end)).
  exists (snd (User.save Samples.brokenSigner
                 (signupDocument Samples.brokenSigner "oid10" Demo.signupBody)
                 (tick_entropy Demo.world))).
  destruct (signup_signer_failure_after_persist Samples.brokenSigner
              (Demo.request Demo.signupBody []) Demo.world
              (snd (User.save Samples.brokenSigner
                      (signupDocument Samples.brokenSigner "oid10"
                                      Demo.signupBody)
                      (tick_entropy Demo.world)))
              (fst (match User.save Samples.brokenSigner
                            (signupDocument Samples.brokenSigner "oid10"
                                            Demo.signupBody)
                            (tick_entropy Demo.world)
                    with
                    | (Normal u, w1) => (u, w1)
                    | (Throw _, w1) => (Demo.alice, w1)
                    end))
              Samples.signerDown eq_refl eq_refl)
    as (Hrun & Hus & _).
  - right. right. exists "jwt.oid10", "access.oid10". repeat split.
  - discriminate.
  - split; [exact Hrun|]. split; [exact Hus | reflexivity].
Defined.

Lemma envelopes_are_consistent_witness :
  exists e,
    fst (handle Demo.collaborators (Login Demo.loginAlice) Demo.world)
    = Normal (Returned e)
    /\ isError e = negb (success e)
    /\ In (statusCode e) statusCodes
    /\ (success e = true -> statusCode e = 200 \/ statusCode e = 201)
    /\ (statusCode e <> 422 ->
        oldInput e = JUndefined /\ validationErrors e = JUndefined).
Proof.
  eexists. split; [reflexivity|].
  apply (envelopes_are_consistent Demo.collaborators (Login Demo.loginAlice)
           Demo.world
           (snd (handle Demo.collaborators (Login Demo.loginAlice)
                        Demo.world))).
  reflexivity.
Defined.

Lemma serve_oneTokenPerUser_witness :
  oneTokenPerUser (serve Demo.collaborators Samples.session Samples.noToken).
Proof.
  apply (serve_oneTokenPerUser Demo.collaborators Samples.session
           Samples.noToken).
  unfold oneTokenPerUser. simpl. constructor.
Defined.

(** ** From a reset request to the reset *)

Section RoundTrip.
Variable C : Collaborators.




End RoundTrip.

